(** * The annotated source-code model of the profiler GUI

    A shallow embedding of [src/models/sourcecodemodel.cpp]: the table model
    that maps the per-instruction costs of one symbol onto the lines of its
    source file.  The Qt objects are replaced by plain data (a [QList] is a
    list, a [QSet<int>] a finite set of integers, a [QVariant] a tagged
    union) and every C++ operation whose behaviour is undefined (indexing
    a list out of range, dereferencing the null layout of an invalid text
    block, signed overflow of an [int]) is an explicit [Fault]. *)

From Stdlib Require Import ZArith String Ascii List Lia Bool.
From stdpp Require Import gmap strings list.

Open Scope Z_scope.

(** ** Results of partial C++ code *)

Inductive fault : Type :=
| OutOfRange (index : Z)      (* QList::operator[] / QList::at outside [0, size) *)
| NullLayout (lineNumber : Z) (* QTextBlock::layout() of an invalid block is null *)
| Overflow                    (* signed arithmetic leaving the range of int *)
| OutOfFuel.                  (* artefact of the embedding, proved unreachable *)

Inductive result (A : Type) : Type :=
| Ok (a : A)
| Fault (f : fault).
Arguments Ok {A} a.
Arguments Fault {A} f.

Definition bind {A B : Type} (r : result A) (k : A -> result B) : result B :=
  match r with
  | Ok a => k a
  | Fault f => Fault f
  end.

Notation "'let*' x ':=' r 'in' k" := (bind r (fun x => k))
  (at level 10, x pattern, r at level 200, k at level 200).

(** ** The C++ type int *)

Definition INT_MAX : Z := 2147483647.
Definition INT_MIN : Z := -2147483648.

Definition is_int (z : Z) : Prop := INT_MIN <= z <= INT_MAX.

Definition to_int (z : Z) : result Z :=
  if (INT_MIN <=? z) && (z <=? INT_MAX) then Ok z else Fault Overflow.

Definition int_add (a b : Z) : result Z := to_int (a + b).
Definition int_sub (a b : Z) : result Z := to_int (a - b).

(** ** Data::Costs, the line-cost aggregator *)

Module Costs.

(** Modelled from the spec: the class [Data::Costs] (declared in [data.h],
    which is not part of the sources at hand).  Section 4.1 of the
    specification gives its contract: [initialize] resets all per-type
    totals to zero and establishes the type count; [add] adds each of the
    record's per-type values to that line's running total and to that
    type's grand total; [cost] returns the accumulated value, 0 if absent;
    [totalCost] returns the grand total of a type. *)
Record t : Type := mk {
  types : Z;                    (* the type count *)
  totals : gmap Z Z;            (* type index -> grand total *)
  lineCosts : gmap (Z * Z) Z    (* (type index, line number) -> cost *)
}.

(** Modelled from the spec: a cost record ([Data::ItemCost]) holds one value
    per cost type, in the order of the type indices. *)
Definition ItemCost : Type := list Z.

(** Modelled from the spec: the default-constructed aggregator of
    [m_costs = {}], with no types and no costs. *)
Definition empty : t := mk 0 ∅ ∅.

(** Modelled from the spec: [initialize(costTypes)]. *)
Definition initialize (costTypes : Z) : t :=
  mk costTypes (list_to_map ((fun ty => (ty, 0)) <$> seqZ 0 costTypes)) ∅.

(** Modelled from the spec: [numTypes()], the established type count. *)
Definition numTypes (c : t) : Z := types c.

(** Modelled from the spec: [initializeCostsFrom(rhs)], the form of
    [initialize] that [setDisassembly] calls: the type count is the one of
    the costs it is given. *)
Definition initializeCostsFrom (rhs : t) : t := initialize (numTypes rhs).

(** Modelled from the spec: [cost(typeIndex, lineNumber)]. *)
Definition cost (c : t) (type line : Z) : Z :=
  default 0 (lineCosts c !! (type, line)).

(** Modelled from the spec: [totalCost(typeIndex)]. *)
Definition totalCost (c : t) (type : Z) : Z :=
  default 0 (totals c !! type).

(** Modelled from the spec: what [add] does with one per-type value. *)
Definition addValue (c : t) (type line value : Z) : t :=
  mk (types c)
     (<[type := totalCost c type + value]> (totals c))
     (<[(type, line) := cost c type line + value]> (lineCosts c)).

(** Modelled from the spec: the loop of [add] over the values of the record,
    [type] being the index of the head of [values]. *)
Fixpoint addFrom (type : Z) (values : ItemCost) (line : Z) (c : t) : t :=
  match values with
  | [] => c
  | v :: rest => addFrom (type + 1) rest line (addValue c type line v)
  end.

(** Modelled from the spec: [add(lineNumber, costRecord)]. *)
Definition add (c : t) (line : Z) (record : ItemCost) : t :=
  addFrom 0 record line c.

(** The value a record holds for a type index, 0 outside the record. *)
Definition itemAt (record : ItemCost) (type : Z) : Z :=
  if type <? 0 then 0 else default 0 (record !! Z.to_nat type).

(** A sequence of [add] calls, oldest first. *)
Definition addAll (c : t) (records : list (Z * ItemCost)) : t :=
  foldl (fun acc r => add acc (fst r) (snd r)) c records.

(** The sum of [f] over the lines of a finite set. *)
Definition sumOver (lines : gset Z) (f : Z -> Z) : Z :=
  foldr (fun l acc => f l + acc) 0 (elements lines).

End Costs.

(** ** Text: QString, QStringList, QTextDocument *)

(** The text of the source file after [QString::fromUtf8].  The embedding
    keeps the bytes: the two characters the code looks for, the line feed
    and the opening parenthesis, are ASCII, and no byte of a multi-byte
    UTF-8 sequence equals an ASCII character. *)
Definition newline : ascii := "010"%char.
Definition openParen : ascii := "("%char.

(** [sourceCode.split(QLatin1Char('\n'))]: empty parts are kept, so the
    result is never empty and a trailing line feed yields a last empty
    line. *)
Fixpoint split (s : string) : list string :=
  match s with
  | EmptyString => [EmptyString]
  | String c rest =>
      if Ascii.eqb c newline then EmptyString :: split rest
      else match split rest with
           | [] => [String c EmptyString]
           | l :: ls => String c l :: ls
           end
  end.

(** [QString::contains(QLatin1Char)]. *)
Fixpoint contains (s : string) (c : ascii) : bool :=
  match s with
  | EmptyString => false
  | String d rest => Ascii.eqb d c || contains rest c
  end.

(** [QString::isEmpty]. *)
Definition isEmpty (s : string) : bool :=
  match s with
  | EmptyString => true
  | String _ _ => false
  end.

(** [QList::count]. *)
Definition count {A : Type} (l : list A) : Z := Z.of_nat (length l).

(** The element at a non-negative index, counted down along the list. *)
Fixpoint lookupZ {A : Type} (l : list A) (i : Z) : option A :=
  match l with
  | [] => None
  | x :: rest => if i =? 0 then Some x else lookupZ rest (i - 1)
  end.

(** [QList::operator[]] and [QList::at]: the index must be in [0, size). *)
Definition listAt {A : Type} (l : list A) (i : Z) : result A :=
  if i <? 0 then Fault (OutOfRange i)
  else match lookupZ l i with
       | Some x => Ok x
       | None => Fault (OutOfRange i)
       end.

(** A [QTextLine]: the first layout line of a block of the document,
    identified by the number of its block and carrying its text. *)
Record QTextLine : Type := mkTextLine {
  lineBlock : Z;
  lineText : string
}.

(** The blocks of [m_document] after [setPlainText(sourceCode)]: one block
    per line of the text.  The text width is set to the ideal width, so a
    block is laid out as a single line and line numbers are block
    numbers. *)
Definition blocks (document : string) : list string := split document.

(** [m_document->findBlockByLineNumber(i).layout()->lineAt(0)]: the block
    is invalid when [i] is not the number of a line of the document, and
    the layout of an invalid block is a null pointer. *)
Definition firstLineOfBlock (document : string) (i : Z) : result QTextLine :=
  if i <? 0 then Fault (NullLayout i)
  else match lookupZ (blocks document) i with
       | Some text => Ok (mkTextLine i text)
       | None => Fault (NullLayout i)
       end.

(** A loop body run over a list of indices, collecting what it returns. *)
Fixpoint mapResult {A B : Type} (f : A -> result B) (l : list A) : result (list B) :=
  match l with
  | [] => Ok []
  | x :: rest =>
      let* y := f x in
      let* ys := mapResult f rest in
      Ok (y :: ys)
  end.

(** ** The inputs: disassembly output and caller/callee results *)

(** Modelled from the spec: a [DisassemblyLine] (declared in
    [disassemblyoutput.h], not at hand) is an immutable record of an
    address, a mapped source line (0 when unmapped) and the raw text. *)
Record DisassemblyLine : Type := mkDisassemblyLine {
  addr : Z;
  sourceCodeLine : Z;
  disassembly : string
}.

(** Modelled from the spec: the disassembly-output structure holds a symbol
    identifier, a source file path and the ordered instruction lines. *)
Record DisassemblyOutput : Type := mkDisassemblyOutput {
  symbol : string;
  sourceFileName : string;
  disassemblyLines : list DisassemblyLine
}.

(** Modelled from the spec: the per-symbol cost results map an address to a
    self-cost record broken down by cost type. *)
Record LocationCost : Type := mkLocationCost {
  selfCost : Costs.ItemCost
}.

Record CallerCalleeEntry : Type := mkEntry {
  offsetMap : gmap Z LocationCost
}.

(** Modelled from the spec: [Data::CallerCalleeResults] (declared in
    [data.h], not at hand) holds the self costs of all symbols and one
    entry per symbol. *)
Record CallerCalleeResults : Type := mkResults {
  selfCosts : Costs.t;
  entries : gmap string CallerCalleeEntry
}.

(** Modelled from the spec: [entry(symbol)], the entry of a symbol, empty
    when the symbol has no costs. *)
Definition entry (results : CallerCalleeResults) (sym : string) : CallerCalleeEntry :=
  default (mkEntry ∅) (entries results !! sym).

(** The files that can be opened for reading, with their contents:
    [QFile::open(QIODevice::ReadOnly)] followed by [readAll]. *)
Definition FileSystem : Type := string -> option string.

(** ** Model indices, roles, variants and signals *)

Record QModelIndex : Type := mkIndex {
  row : Z;
  column : Z
}.

(** [QModelIndex()], the invalid index: the parent of every item of a table
    model. *)
Definition invalidIndex : QModelIndex := mkIndex (-1) (-1).

Definition isValid (index : QModelIndex) : bool :=
  (0 <=? row index) && (0 <=? column index).

(** [QAbstractTableModel::parent]. *)
Definition parent (index : QModelIndex) : QModelIndex := invalidIndex.

(** The roles [data] and [headerData] compare their argument with: two
    roles of Qt and the two custom roles of the model, which start at
    [Qt::UserRole]; every other value of the [int] is an [OtherRole]. *)
Inductive Role : Type :=
| DisplayRole
| ToolTipRole
| CostRole
| TotalCostRole
| OtherRole (r : Z).

Definition Role_eqb (a b : Role) : bool :=
  match a, b with
  | DisplayRole, DisplayRole => true
  | ToolTipRole, ToolTipRole => true
  | CostRole, CostRole => true
  | TotalCostRole, TotalCostRole => true
  | OtherRole x, OtherRole y => x =? y
  | _, _ => false
  end.

Inductive Orientation : Type := Horizontal | Vertical.

Inductive QVariant : Type :=
| QInvalid                 (* the empty value, [return {}] *)
| QInt (i : Z)
| QBool (b : bool)
| QCost (c : Z)
| QText (s : string)
| QLine (l : QTextLine).

Inductive Signal : Type :=
| ModelAboutToBeReset      (* beginResetModel *)
| ModelReset               (* endResetModel *)
| DataChanged (topLeft bottomRight : QModelIndex).

(** The declarations that [sourcecodemodel.cpp] takes from headers not at
    hand: the enumerators of [SourceCodeModel::Columns], the type names of
    [Data::Costs] and [Util::formatCostRelative].  The enumerators that
    name a column are distinct, as those of a C++ enumeration declared
    without initialisers are. *)
Class Declarations : Type := {
  SourceCodeColumn : Z;
  SourceCodeLineNumber : Z;
  Highlight : Z;
  COLUMN_COUNT : Z;
  typeName : Costs.t -> Z -> string;
  formatCostRelative : Z -> Z -> bool -> string;
  columns_distinct : NoDup [SourceCodeColumn; SourceCodeLineNumber; Highlight]
}.

(** ** The state of a SourceCodeModel *)

Record SourceCodeModel : Type := mkModel {
  m_sourceCode : list QTextLine;
  m_validLineNumbers : gset Z;
  m_costs : Costs.t;
  m_callerCalleeResults : CallerCalleeResults;
  m_document : string;
  m_numTypes : Z;
  m_lineOffset : Z;
  m_highlightLine : Z
}.

Definition set_sourceCode (v : list QTextLine) (m : SourceCodeModel) : SourceCodeModel :=
  mkModel v (m_validLineNumbers m) (m_costs m) (m_callerCalleeResults m)
          (m_document m) (m_numTypes m) (m_lineOffset m) (m_highlightLine m).

Definition set_validLineNumbers (v : gset Z) (m : SourceCodeModel) : SourceCodeModel :=
  mkModel (m_sourceCode m) v (m_costs m) (m_callerCalleeResults m)
          (m_document m) (m_numTypes m) (m_lineOffset m) (m_highlightLine m).

Definition set_costs (v : Costs.t) (m : SourceCodeModel) : SourceCodeModel :=
  mkModel (m_sourceCode m) (m_validLineNumbers m) v (m_callerCalleeResults m)
          (m_document m) (m_numTypes m) (m_lineOffset m) (m_highlightLine m).

Definition set_callerCalleeResults (v : CallerCalleeResults) (m : SourceCodeModel) : SourceCodeModel :=
  mkModel (m_sourceCode m) (m_validLineNumbers m) (m_costs m) v
          (m_document m) (m_numTypes m) (m_lineOffset m) (m_highlightLine m).

Definition set_document (v : string) (m : SourceCodeModel) : SourceCodeModel :=
  mkModel (m_sourceCode m) (m_validLineNumbers m) (m_costs m) (m_callerCalleeResults m)
          v (m_numTypes m) (m_lineOffset m) (m_highlightLine m).

Definition set_numTypes (v : Z) (m : SourceCodeModel) : SourceCodeModel :=
  mkModel (m_sourceCode m) (m_validLineNumbers m) (m_costs m) (m_callerCalleeResults m)
          (m_document m) v (m_lineOffset m) (m_highlightLine m).

Definition set_lineOffset (v : Z) (m : SourceCodeModel) : SourceCodeModel :=
  mkModel (m_sourceCode m) (m_validLineNumbers m) (m_costs m) (m_callerCalleeResults m)
          (m_document m) (m_numTypes m) v (m_highlightLine m).

Definition set_highlightLine (v : Z) (m : SourceCodeModel) : SourceCodeModel :=
  mkModel (m_sourceCode m) (m_validLineNumbers m) (m_costs m) (m_callerCalleeResults m)
          (m_document m) (m_numTypes m) (m_lineOffset m) v.

(** ** SourceCodeModel::setDisassembly *)

(** The variables of the scan over the disassembly lines: the two locals
    [maxIndex] and [minIndex], and the model whose [m_costs] and
    [m_validLineNumbers] the loop body updates. *)
Record Scan : Type := mkScan {
  maxIndex : Z;
  minIndex : Z;
  scanned : SourceCodeModel
}.

(** One iteration of the loop over [disassemblyOutput.disassemblyLines].
    (The local [totalCost] the body computes is not used.) *)
Definition scanStep (e : CallerCalleeEntry) (s : Scan) (line : DisassemblyLine) : Scan :=
  if sourceCodeLine line =? 0 then s
  else
    let maxIndex' :=
      if sourceCodeLine line >? maxIndex s then sourceCodeLine line else maxIndex s in
    let minIndex' :=
      if sourceCodeLine line <? minIndex s then sourceCodeLine line else minIndex s in
    let m := scanned s in
    let m1 :=
      match offsetMap e !! addr line with
      | Some locationCost =>
          set_costs (Costs.add (m_costs m) (sourceCodeLine line) (selfCost locationCost)) m
      | None => m
      end in
    let m2 := set_validLineNumbers ({[sourceCodeLine line]} ∪ m_validLineNumbers m1) m1 in
    mkScan maxIndex' minIndex' m2.

Definition scan (e : CallerCalleeEntry) (lines : list DisassemblyLine) (s : Scan) : Scan :=
  foldl (scanStep e) s lines.

(** The loop that looks for an opening parenthesis:
    [for (int i = minIndex - 1; i > minIndex - 6; i--)], whose body
    decrements [minIndex].  One unit of fuel pays for one test of the loop
    condition; the walk tests it at most once per line of the file and once
    more below line 0. *)
Fixpoint signatureLoop (fuel : nat) (lines : list string) (i minIndex : Z) : result Z :=
  match fuel with
  | O => Fault OutOfFuel
  | S fuel' =>
      let* bound := int_sub minIndex 6 in
      if i >? bound then
        if i <? 0 then Ok minIndex
        else
          let* index := int_sub minIndex 1 in
          let* text := listAt lines index in
          if contains text openParen then Ok minIndex
          else
            let* minIndex' := int_sub minIndex 1 in
            let* i' := int_sub i 1 in
            signatureLoop fuel' lines i' minIndex'
      else Ok minIndex
  end.

(** The heuristic that extends the range to the function signature: the
    value of [minIndex] after it. *)
Definition includeSignature (lines : list string) (minIndex : Z) : result Z :=
  let* index := int_sub minIndex 1 in
  let* text := listAt lines index in
  if negb (contains text openParen) then
    let* i := int_sub minIndex 1 in
    signatureLoop (S (length lines)) lines i minIndex
  else Ok minIndex.

(** The first part of [setDisassembly], for a file that was opened and
    read: the reset of the valid lines and of the costs, the new document,
    and the scan of the disassembly lines from [maxIndex = 0] and
    [minIndex = INT_MAX]. *)
Definition resetAndScan (m : SourceCodeModel) (sourceCode : string)
    (disassemblyOutput : DisassemblyOutput) : Scan :=
  let m := set_validLineNumbers ∅ m in
  let m := set_costs Costs.empty m in
  let m := set_costs (Costs.initializeCostsFrom (selfCosts (m_callerCalleeResults m))) m in
  let m := set_document sourceCode m in
  let e := entry (m_callerCalleeResults m) (symbol disassemblyOutput) in
  scan e (disassemblyLines disassemblyOutput) (mkScan 0 INT_MAX m).

(** The second part: the signature heuristic on the lines of the file, the
    loop [for (int i = minIndex - 1; i < maxIndex + 1; i++)] that pushes
    the first layout line of block [i], and the line offset. *)
Definition buildRows (lines : list string) (s : Scan) : result SourceCodeModel :=
  let m := set_sourceCode [] (scanned s) in
  let* minIndex := includeSignature lines (minIndex s) in
  let* first := int_sub minIndex 1 in
  let* bound := int_add (maxIndex s) 1 in
  let* pushed :=
    mapResult (firstLineOfBlock (m_document m)) (seqZ first (bound - first)) in
  let m := set_sourceCode (m_sourceCode m ++ pushed) m in
  Ok (set_lineOffset minIndex m).

(** The function returns the new state of the model and the signals it
    emitted: none on the two early returns, the two of
    [beginResetModel] and [endResetModel] otherwise. *)
Definition setDisassembly (fs : FileSystem) (m : SourceCodeModel)
    (disassemblyOutput : DisassemblyOutput) : result (SourceCodeModel * list Signal) :=
  if isEmpty (sourceFileName disassemblyOutput) then Ok (m, [])
  else
    match fs (sourceFileName disassemblyOutput) with
    | None => Ok (m, [])
    | Some sourceCode =>
        let lines := split sourceCode in
        let s := resetAndScan m sourceCode disassemblyOutput in
        let* m := buildRows lines s in
        Ok (m, [ModelAboutToBeReset; ModelReset])
    end.

(** The display range at the end of [setDisassembly] for a file that was
    opened: [minIndex] after the signature heuristic, and [maxIndex]. *)
Definition displayRange (m : SourceCodeModel) (sourceCode : string)
    (disassemblyOutput : DisassemblyOutput) : result (Z * Z) :=
  let s := resetAndScan m sourceCode disassemblyOutput in
  let* minIndex := includeSignature (split sourceCode) (minIndex s) in
  Ok (minIndex, maxIndex s).

(** ** The queries of the table model *)

Section Queries.
Context {decls : Declarations}.

Definition rowCount (m : SourceCodeModel) (parent : QModelIndex) : Z :=
  if isValid parent then 0 else count (m_sourceCode m).

Definition columnCount (m : SourceCodeModel) (parent : QModelIndex) : result Z :=
  if isValid parent then Ok 0 else int_add COLUMN_COUNT (m_numTypes m).

(** [QAbstractItemModel::hasIndex]. *)
Definition hasIndex (m : SourceCodeModel) (row column : Z) (parent : QModelIndex) : result bool :=
  if (row <? 0) || (column <? 0) then Ok false
  else if row <? rowCount m parent then
    let* columns := columnCount m parent in
    Ok (column <? columns)
  else Ok false.

Definition cellRole (role : Role) : bool :=
  Role_eqb role DisplayRole || Role_eqb role ToolTipRole
  || Role_eqb role CostRole || Role_eqb role TotalCostRole.

Definition data (m : SourceCodeModel) (index : QModelIndex) (role : Role) : result QVariant :=
  let* has := hasIndex m (row index) (column index) (parent index) in
  if negb has then Ok QInvalid
  else if (row index >? count (m_sourceCode m)) || (row index <? 0) then Ok QInvalid
  else
    let* line := listAt (m_sourceCode m) (row index) in
    if cellRole role then
      if column index =? SourceCodeColumn then Ok (QLine line)
      else if column index =? SourceCodeLineNumber then
        let* line := int_add (row index) (m_lineOffset m) in
        if bool_decide (line ∈ m_validLineNumbers m) then Ok (QInt line) else Ok (QInt 0)
      else if column index =? Highlight then
        let* line := int_add (row index) (m_lineOffset m) in
        Ok (QBool (line =? m_highlightLine m))
      else
        let* type := int_sub (column index) COLUMN_COUNT in
        if type <? m_numTypes m then
          let* line := int_add (row index) (m_lineOffset m) in
          let cost := Costs.cost (m_costs m) type line in
          let totalCost := Costs.totalCost (m_costs m) type in
          if Role_eqb role CostRole then Ok (QCost cost)
          else if Role_eqb role TotalCostRole then Ok (QCost totalCost)
          else Ok (QText (formatCostRelative cost totalCost true))
        else Ok QInvalid
    else Ok QInvalid.

(** The texts are those passed to [tr], untranslated. *)
Definition headerData (m : SourceCodeModel) (section : Z) (orientation : Orientation)
    (role : Role) : result QVariant :=
  let* outside :=
    if section <? 0 then Ok true
    else let* columns := int_add COLUMN_COUNT (m_numTypes m) in Ok (section >=? columns) in
  if outside then Ok QInvalid
  else if negb (Role_eqb role DisplayRole)
          || negb (match orientation with Horizontal => true | Vertical => false end)
  then Ok QInvalid
  else if section =? SourceCodeColumn then Ok (QText "Source Code")
  else if section =? SourceCodeLineNumber then Ok (QText "Source Code Line Number")
  else if section =? Highlight then Ok (QText "Highlight")
  else
    let* type := int_sub section COLUMN_COUNT in
    if type <=? m_numTypes m
    then Ok (QText (typeName (selfCosts (m_callerCalleeResults m)) type))
    else Ok QInvalid.

Definition updateHighlighting (m : SourceCodeModel) (line : Z) : SourceCodeModel * list Signal :=
  (set_highlightLine line m,
   [DataChanged (mkIndex 0 SourceCodeColumn)
                (mkIndex (rowCount m invalidIndex) SourceCodeColumn)]).

Definition lineForIndex (m : SourceCodeModel) (index : QModelIndex) : result Z :=
  int_add (row index) (m_lineOffset m).

End Queries.

Definition clear (m : SourceCodeModel) : SourceCodeModel * list Signal :=
  (set_sourceCode [] m, [ModelAboutToBeReset; ModelReset]).

Definition setCallerCalleeResults (m : SourceCodeModel) (results : CallerCalleeResults)
    : SourceCodeModel * list Signal :=
  (set_numTypes (Costs.numTypes (selfCosts results)) (set_callerCalleeResults results m),
   [ModelAboutToBeReset; ModelReset]).

(** ** What a scan has seen *)

(** The source lines of the mapped instructions, in the order of the
    disassembly. *)
Fixpoint mappedLines (lines : list DisassemblyLine) : list Z :=
  match lines with
  | [] => []
  | line :: rest =>
      if sourceCodeLine line =? 0 then mappedLines rest
      else sourceCodeLine line :: mappedLines rest
  end.

(** The cost records of the mapped instructions whose address has an entry
    in the offset map, each with the source line of its instruction. *)
Fixpoint costRecords (e : CallerCalleeEntry) (lines : list DisassemblyLine)
    : list (Z * Costs.ItemCost) :=
  match lines with
  | [] => []
  | line :: rest =>
      if sourceCodeLine line =? 0 then costRecords e rest
      else match offsetMap e !! addr line with
           | Some locationCost =>
               (sourceCodeLine line, selfCost locationCost) :: costRecords e rest
           | None => costRecords e rest
           end
  end.

(** The components of the model that a load of a disassembly rebuilds. *)
Definition sameDisplay (a b : SourceCodeModel) : Prop :=
  m_costs a = m_costs b /\
  m_validLineNumbers a = m_validLineNumbers b /\
  m_sourceCode a = m_sourceCode b /\
  m_lineOffset a = m_lineOffset b.

(** Whether line [j] of a line buffer exists and holds an opening
    parenthesis, or exists and holds none. *)
Definition hasParen (lines : list string) (j : Z) : Prop :=
  exists text, lookupZ lines j = Some text /\ contains text openParen = true.

Definition lacksParen (lines : list string) (j : Z) : Prop :=
  exists text, lookupZ lines j = Some text /\ contains text openParen = false.

(** ** Concrete inputs *)

Module Examples.

(** The enumerators in the order in which [headerData] names them. *)
Lemma enumerators_distinct : NoDup [0; 1; 2].
Proof. apply (bool_decide_unpack _). reflexivity. Qed.

#[export] Instance declarations : Declarations := {|
  SourceCodeColumn := 0;
  SourceCodeLineNumber := 1;
  Highlight := 2;
  COLUMN_COUNT := 3;
  typeName := fun _ type => if type =? 0 then "cycles" else "cache-misses";
  formatCostRelative := fun cost total _ => if cost =? total then "100%" else "<100%";
  columns_distinct := enumerators_distinct
|}.

(** The text of a file whose lines are [ls], each ended by a line feed. *)
Definition text (ls : list string) : string :=
  fold_right (fun l acc => l ++ String newline acc)%string EmptyString ls.

Definition mainC : string :=
  text [ "#include <stdio.h>"; ""; "static int g;"; ""; "int main(void)"; "{";
         "  g = 1;"; ""; "  return g;"; "}" ].

(** A function whose signature spreads over seven lines. *)
Definition wideC : string :=
  text [ "int f("; "  int a,"; "  int b,"; "  int c,"; "  int d,"; "  int e,";
         "  int g)"; "{"; "  return a;"; "}" ].

Definition tinyC : string := text [ "int x;" ].

(** A file that does not end with a line feed: its last line is line 3. *)
Definition bareC : string :=
  ("int f(void)" ++ String newline ("{" ++ String newline "}"))%string.

Definition files : FileSystem := fun name =>
  if String.eqb name "main.c" then Some mainC
  else if String.eqb name "wide.c" then Some wideC
  else if String.eqb name "tiny.c" then Some tinyC
  else if String.eqb name "bare.c" then Some bareC
  else None.

(** Two cost types; the symbol [main] has costs at two of its addresses. *)
Definition results : CallerCalleeResults :=
  mkResults (Costs.initialize 2)
            {[ "main"%string :=
                 mkEntry {[ 4096 := mkLocationCost [10; 1];
                            4100 := mkLocationCost [5; 0] ]} ]}.

Definition initialModel : SourceCodeModel :=
  mkModel [] ∅ Costs.empty (mkResults Costs.empty ∅) EmptyString 0 0 0.

Definition model : SourceCodeModel := fst (setCallerCalleeResults initialModel results).

(** Source-line mappings 5, 5, 7, 0, 9. *)
Definition mainDisassembly : DisassemblyOutput :=
  mkDisassemblyOutput "main" "main.c"
    [ mkDisassemblyLine 4096 5 "push %rbp";
      mkDisassemblyLine 4100 5 "mov %rsp,%rbp";
      mkDisassemblyLine 4104 7 "movl $0x1,g";
      mkDisassemblyLine 4108 0 "nop";
      mkDisassemblyLine 4112 9 "mov g,%eax" ].

Definition wideDisassembly : DisassemblyOutput :=
  mkDisassemblyOutput "f" "wide.c"
    [ mkDisassemblyLine 8192 8 "push %rbp";
      mkDisassemblyLine 8196 9 "mov %edi,%eax";
      mkDisassemblyLine 8200 10 "ret" ].

Definition unmappedDisassembly : DisassemblyOutput :=
  mkDisassemblyOutput "x" "tiny.c"
    [ mkDisassemblyLine 12288 0 "nop"; mkDisassemblyLine 12292 0 "ret" ].

Definition bareDisassembly : DisassemblyOutput :=
  mkDisassemblyOutput "f" "bare.c"
    [ mkDisassemblyLine 16384 2 "push %rbp"; mkDisassemblyLine 16388 3 "ret" ].

(** A function that a macro defines: no line of the file holds a
    parenthesis. *)
Definition plainC : string := text [ "DEFINE_HANDLER"; "{"; "  run;"; "}" ].

Definition plainFiles : FileSystem := fun name =>
  if String.eqb name "plain.c" then Some plainC else None.

Definition plainDisassembly : DisassemblyOutput :=
  mkDisassemblyOutput "handler" "plain.c"
    [ mkDisassemblyLine 20480 2 "push %rbp"; mkDisassemblyLine 20484 3 "call run";
      mkDisassemblyLine 20488 4 "ret" ].

Definition missingDisassembly : DisassemblyOutput :=
  mkDisassemblyOutput "main" "gone.c" (disassemblyLines mainDisassembly).

(** The model after a call of [setDisassembly], the model before it when
    the call faults. *)
Definition load (m : SourceCodeModel) (d : DisassemblyOutput) : SourceCodeModel :=
  match setDisassembly files m d with
  | Ok (m', _) => m'
  | Fault _ => m
  end.

Definition mainLoaded : SourceCodeModel := load model mainDisassembly.
Definition wideLoaded : SourceCodeModel := load model wideDisassembly.
Definition mainReloaded : SourceCodeModel := load wideLoaded mainDisassembly.

Definition resetSignals : list Signal := [ModelAboutToBeReset; ModelReset].

(** A role that no cell answers ([Qt::DecorationRole]). *)
Definition decorationRole : Role := OtherRole 1.

(** A disassembly of [main] whose first instruction is unmapped only. *)
Definition emptyDisassembly : DisassemblyOutput :=
  mkDisassemblyOutput "main" "main.c" [ mkDisassemblyLine 4096 0 "nop" ].

(** Three [add] calls on two lines, and a set of lines that holds them. *)
Definition records : list (Z * Costs.ItemCost) := [(5, [10; 1]); (5, [5; 0]); (7, [3; 2])].
Definition lines : gset Z := {[5; 7; 8]}.

End Examples.

(** ** Runs of the model *)

(** What the rows of the model are to its document: row [r] is the first
    line of block [m_lineOffset - 1 + r]. *)
Definition rowsOfDocument (m : SourceCodeModel) : Prop :=
  forall r, 0 <= r < count (m_sourceCode m) ->
    exists text,
      lookupZ (blocks (m_document m)) (m_lineOffset m - 1 + r) = Some text /\
      lookupZ (m_sourceCode m) r = Some (mkTextLine (m_lineOffset m - 1 + r) text).

Section Runs.
Context {decls : Declarations}.

(** One call of a member function that writes to the model and returns. *)
Inductive step : SourceCodeModel -> SourceCodeModel -> Prop :=
| step_setDisassembly (fs : FileSystem) (m m' : SourceCodeModel)
    (d : DisassemblyOutput) (signals : list Signal) :
    setDisassembly fs m d = Ok (m', signals) -> step m m'
| step_updateHighlighting (m : SourceCodeModel) (line : Z) :
    step m (fst (updateHighlighting m line))
| step_clear (m : SourceCodeModel) :
    step m (fst (clear m))
| step_setCallerCalleeResults (m : SourceCodeModel) (results : CallerCalleeResults) :
    step m (fst (setCallerCalleeResults m results)).

(** The models that calls lead to from a model without rows, as the
    constructor leaves it. *)
Inductive reachable : SourceCodeModel -> Prop :=
| reachable_constructed (m : SourceCodeModel) :
    m_sourceCode m = [] -> reachable m
| reachable_step (m m' : SourceCodeModel) :
    reachable m -> step m m' -> reachable m'.

End Runs.

(** The cost that a list of cost records holds for a type at a line. *)
Definition recordsCost (records : list (Z * Costs.ItemCost)) (type line : Z) : Z :=
  foldr (fun r acc => (if decide (fst r = line) then Costs.itemAt (snd r) type else 0) + acc)
        0 records.

(** * Properties *)

(** ** Results and integers *)

Lemma bind_Ok {A B : Type} (r : result A) (k : A -> result B) (b : B) :
  bind r k = Ok b -> exists a, r = Ok a /\ k a = Ok b.
Proof. destruct r as [a|f]; simpl; [eauto | discriminate]. Qed.

Lemma to_int_Ok (z r : Z) : to_int z = Ok r -> r = z /\ is_int z.
Proof.
  unfold to_int, is_int.
  destruct (INT_MIN <=? z) eqn:Hlo; destruct (z <=? INT_MAX) eqn:Hhi;
    simpl; intros H; inversion H; subst; split; try reflexivity; lia.
Qed.

Lemma to_int_in_range (z : Z) : is_int z -> to_int z = Ok z.
Proof.
  unfold to_int, is_int. intros [Hlo Hhi].
  apply Z.leb_le in Hlo. apply Z.leb_le in Hhi. now rewrite Hlo, Hhi.
Qed.

Lemma int_add_Ok (a b r : Z) : int_add a b = Ok r -> r = a + b /\ is_int (a + b).
Proof. apply to_int_Ok. Qed.

Lemma int_sub_Ok (a b r : Z) : int_sub a b = Ok r -> r = a - b /\ is_int (a - b).
Proof. apply to_int_Ok. Qed.

(** ** The line-cost aggregator *)

Section CostsFacts.
Import Costs.

Lemma itemAt_negative (record : ItemCost) (k : Z) : k < 0 -> itemAt record k = 0.
Proof. intros Hk. unfold itemAt. destruct (Z.ltb_spec k 0); [reflexivity | lia]. Qed.

Lemma itemAt_cons (v : Z) (rest : ItemCost) (k : Z) :
  itemAt (v :: rest) k = if k =? 0 then v else itemAt rest (k - 1).
Proof.
  unfold itemAt.
  destruct (Z.ltb_spec k 0) as [Hneg|Hpos].
  - destruct (Z.eqb_spec k 0); [lia|].
    destruct (Z.ltb_spec (k - 1) 0); [reflexivity | lia].
  - destruct (Z.eqb_spec k 0) as [->|Hk]; [reflexivity|].
    destruct (Z.ltb_spec (k - 1) 0); [lia|].
    replace (Z.to_nat k) with (S (Z.to_nat (k - 1))) by lia.
    reflexivity.
Qed.

Lemma cost_addValue (c : t) (type line v type' line' : Z) :
  cost (addValue c type line v) type' line'
  = cost c type' line' + (if decide (type' = type /\ line' = line) then v else 0).
Proof.
  unfold cost at 1. simpl.
  destruct (decide (type' = type /\ line' = line)) as [[-> ->]|Hne].
  - rewrite lookup_insert_eq. reflexivity.
  - rewrite lookup_insert_ne by (intros [= -> ->]; tauto).
    unfold cost. lia.
Qed.

Lemma totalCost_addValue (c : t) (type line v type' : Z) :
  totalCost (addValue c type line v) type'
  = totalCost c type' + (if decide (type' = type) then v else 0).
Proof.
  unfold totalCost at 1. simpl.
  destruct (decide (type' = type)) as [->|Hne].
  - rewrite lookup_insert_eq. reflexivity.
  - rewrite lookup_insert_ne by congruence. unfold totalCost. lia.
Qed.

Lemma cost_addFrom (values : ItemCost) :
  forall (first line : Z) (c : t) (type line' : Z),
    cost (addFrom first values line c) type line'
    = cost c type line'
      + (if decide (line' = line) then itemAt values (type - first) else 0).
Proof.
  induction values as [|v rest IH]; intros first line c type line'; simpl.
  - unfold itemAt. destruct (type - first <? 0), (decide (line' = line)); simpl; lia.
  - rewrite IH, cost_addValue, itemAt_cons.
    replace (type - (first + 1)) with (type - first - 1) by lia.
    pose proof (itemAt_negative rest (type - first - 1)) as Hneg.
    destruct (Z.eqb_spec (type - first) 0) as [Hz|Hz];
      repeat case_decide; try lia; exfalso; intuition lia.
Qed.

Lemma totalCost_addFrom (values : ItemCost) :
  forall (first line : Z) (c : t) (type : Z),
    totalCost (addFrom first values line c) type
    = totalCost c type + itemAt values (type - first).
Proof.
  induction values as [|v rest IH]; intros first line c type; simpl.
  - unfold itemAt. destruct (type - first <? 0); simpl; lia.
  - rewrite IH, totalCost_addValue, itemAt_cons.
    replace (type - (first + 1)) with (type - first - 1) by lia.
    pose proof (itemAt_negative rest (type - first - 1)) as Hneg.
    destruct (Z.eqb_spec (type - first) 0) as [Hz|Hz];
      destruct (decide (type = first)) as [Ht|Ht]; lia.
Qed.

Lemma cost_add (c : t) (line : Z) (record : ItemCost) (type line' : Z) :
  cost (add c line record) type line'
  = cost c type line' + (if decide (line' = line) then itemAt record type else 0).
Proof. unfold add. rewrite cost_addFrom. now rewrite Z.sub_0_r. Qed.

Lemma totalCost_add (c : t) (line : Z) (record : ItemCost) (type : Z) :
  totalCost (add c line record) type = totalCost c type + itemAt record type.
Proof. unfold add. rewrite totalCost_addFrom. now rewrite Z.sub_0_r. Qed.

Lemma totalCost_initialize (n type : Z) : totalCost (initialize n) type = 0.
Proof.
  unfold totalCost, initialize. simpl.
  destruct (list_to_map _ !! type) as [v|] eqn:Hv; [|reflexivity].
  apply elem_of_list_to_map_2 in Hv.
  apply list_elem_of_fmap in Hv as (ty & Heq & _).
  now inversion Heq.
Qed.

Lemma cost_initialize (n type line : Z) : cost (initialize n) type line = 0.
Proof. reflexivity. Qed.

(** Adding [v] at one line of a duplicate-free list adds [v] to the sum. *)
Lemma sum_one_line (f g : Z -> Z) (line v : Z) (ls : list Z) :
  NoDup ls ->
  (forall l, g l = f l + (if decide (l = line) then v else 0)) ->
  foldr (fun l acc => g l + acc) 0 ls
  = foldr (fun l acc => f l + acc) 0 ls + (if decide (line ∈ ls) then v else 0).
Proof.
  intros Hnd Hg. induction Hnd as [|x ls Hx Hnd IH]; simpl.
  - destruct (decide (line ∈ [])) as [Hin|_]; [inversion Hin | lia].
  - rewrite IH, Hg.
    destruct (decide (x = line)) as [->|Hne].
    + destruct (decide (line ∈ line :: ls)) as [_|Hn]; [|exfalso; apply Hn; left].
      destruct (decide (line ∈ ls)); [contradiction | lia].
    + destruct (decide (line ∈ ls)) as [Hin|Hnin];
        destruct (decide (line ∈ x :: ls)) as [Hin'|Hnin']; try lia.
      * exfalso. apply Hnin'. now right.
      * exfalso. apply Hnin. inversion Hin'; subst; [congruence | assumption].
Qed.

Lemma sumOver_add (c : t) (line : Z) (record : ItemCost) (type : Z) (lines : gset Z) :
  line ∈ lines ->
  sumOver lines (cost (add c line record) type)
  = sumOver lines (cost c type) + itemAt record type.
Proof.
  intros Hin. unfold sumOver.
  rewrite (sum_one_line (cost c type) _ line (itemAt record type)).
  - destruct (decide (line ∈ elements lines)) as [_|Hn]; [reflexivity|].
    exfalso. apply Hn. now apply elem_of_elements.
  - apply NoDup_elements.
  - intros l. apply cost_add.
Qed.

Lemma addAll_balance (records : list (Z * ItemCost)) :
  forall (c : t) (type : Z) (lines : gset Z),
    (forall r, r ∈ records -> fst r ∈ lines) ->
    sumOver lines (cost (addAll c records) type) - totalCost (addAll c records) type
    = sumOver lines (cost c type) - totalCost c type.
Proof.
  induction records as [|[line record] rest IH]; intros c type lines Hin; simpl.
  - reflexivity.
  - unfold addAll in *. simpl. rewrite IH.
    + rewrite sumOver_add, totalCost_add; [lia|].
      apply (Hin (line, record)). left.
    + intros r Hr. apply Hin. now right.
Qed.

Lemma sumOver_zero (lines : gset Z) (f : Z -> Z) :
  (forall l, f l = 0) -> sumOver lines f = 0.
Proof.
  intros Hf. unfold sumOver. induction (elements lines) as [|x ls IH]; simpl.
  - reflexivity.
  - rewrite Hf, IH. reflexivity.
Qed.

(** A line that no [add] visited has cost 0. *)
Lemma cost_unvisited (records : list (Z * ItemCost)) :
  forall (c : t) (type line : Z),
    (forall r, r ∈ records -> fst r <> line) ->
    cost (addAll c records) type line = cost c type line.
Proof.
  induction records as [|[l record] rest IH]; intros c type line Hne; simpl.
  - reflexivity.
  - unfold addAll in *. simpl. rewrite IH.
    + rewrite cost_add. destruct (decide (line = l)) as [->|_]; [|lia].
      exfalso. apply (Hne (l, record)); [left | reflexivity].
    + intros r Hr. apply Hne. now right.
Qed.

(** The balance of an aggregator that was initialised and then only added
    to: the total of a type is the sum of its line costs. *)
Lemma initialized_total (costTypes : Z) (records : list (Z * ItemCost)) (type : Z)
    (lines : gset Z) :
  (forall r, r ∈ records -> fst r ∈ lines) ->
  totalCost (addAll (initialize costTypes) records) type
  = sumOver lines (cost (addAll (initialize costTypes) records) type).
Proof.
  intros Hin.
  pose proof (addAll_balance records (initialize costTypes) type lines Hin) as Hbal.
  rewrite (sumOver_zero lines (cost (initialize costTypes) type)) in Hbal
    by (intros l; apply cost_initialize).
  rewrite totalCost_initialize in Hbal. lia.
Qed.

(** C1. After [initialize] and any sequence of [add] calls, the total cost
    of every cost type equals the sum, over any finite set of source lines
    that holds all the lines that were added to, of the cost of that type
    at the line; the lines outside such a set have cost 0, so that this is
    the sum over all source lines. *)
Theorem totalCost_is_sum_of_line_costs
    (costTypes : Z) (records : list (Z * ItemCost)) (type : Z) (lines : gset Z) :
  (forall r, r ∈ records -> fst r ∈ lines) ->
  totalCost (addAll (initialize costTypes) records) type
  = sumOver lines (cost (addAll (initialize costTypes) records) type) /\
  (forall line, line ∉ lines -> cost (addAll (initialize costTypes) records) type line = 0).
Proof.
  intros Hin. split.
  - now apply initialized_total.
  - intros line Hline. rewrite cost_unvisited.
    + apply cost_initialize.
    + intros r Hr Heq. apply Hline. rewrite <- Heq. now apply Hin.
Qed.

End CostsFacts.

(** ** The scan of the disassembly lines *)

Section ScanFacts.
Variable e : CallerCalleeEntry.

Lemma scanStep_unmapped (s : Scan) (line : DisassemblyLine) :
  sourceCodeLine line = 0 -> scanStep e s line = s.
Proof. intros H. unfold scanStep. now rewrite H. Qed.

Lemma scan_cons (line : DisassemblyLine) (rest : list DisassemblyLine) (s : Scan) :
  scan e (line :: rest) s = scan e rest (scanStep e s line).
Proof. reflexivity. Qed.

Lemma scan_maxIndex (lines : list DisassemblyLine) :
  forall s, maxIndex (scan e lines s) = foldl Z.max (maxIndex s) (mappedLines lines).
Proof.
  induction lines as [|line rest IH]; intros s; [reflexivity|].
  rewrite scan_cons, IH. simpl. unfold scanStep.
  destruct (Z.eqb_spec (sourceCodeLine line) 0) as [Hz|Hz]; [reflexivity|].
  simpl. f_equal.
  destruct (Z.gtb_spec (sourceCodeLine line) (maxIndex s)); lia.
Qed.

Lemma scan_minIndex (lines : list DisassemblyLine) :
  forall s, minIndex (scan e lines s) = foldl Z.min (minIndex s) (mappedLines lines).
Proof.
  induction lines as [|line rest IH]; intros s; [reflexivity|].
  rewrite scan_cons, IH. simpl. unfold scanStep.
  destruct (Z.eqb_spec (sourceCodeLine line) 0) as [Hz|Hz]; [reflexivity|].
  simpl. f_equal.
  destruct (Z.ltb_spec (sourceCodeLine line) (minIndex s)); lia.
Qed.

Lemma scan_validLineNumbers (lines : list DisassemblyLine) :
  forall s,
    m_validLineNumbers (scanned (scan e lines s))
    = m_validLineNumbers (scanned s) ∪ list_to_set (mappedLines lines).
Proof.
  induction lines as [|line rest IH]; intros s.
  - simpl. now rewrite (right_id_L ∅ (∪)).
  - rewrite scan_cons, IH. simpl. unfold scanStep.
    destruct (Z.eqb_spec (sourceCodeLine line) 0) as [Hz|Hz]; [reflexivity|].
    simpl. rewrite (assoc_L (∪)).
    rewrite (comm_L (∪) (m_validLineNumbers (scanned s))).
    destruct (offsetMap e !! addr line); reflexivity.
Qed.

Lemma scan_costs (lines : list DisassemblyLine) :
  forall s,
    m_costs (scanned (scan e lines s))
    = Costs.addAll (m_costs (scanned s)) (costRecords e lines).
Proof.
  induction lines as [|line rest IH]; intros s; [reflexivity|].
  rewrite scan_cons, IH. simpl. unfold scanStep.
  destruct (Z.eqb_spec (sourceCodeLine line) 0) as [Hz|Hz]; [reflexivity|].
  simpl. destruct (offsetMap e !! addr line); reflexivity.
Qed.

(** The scan writes to [m_costs] and [m_validLineNumbers] only. *)
Lemma scan_frame (lines : list DisassemblyLine) :
  forall s,
    let m := scanned s in
    let m' := scanned (scan e lines s) in
    m_sourceCode m' = m_sourceCode m /\
    m_callerCalleeResults m' = m_callerCalleeResults m /\
    m_document m' = m_document m /\
    m_numTypes m' = m_numTypes m /\
    m_lineOffset m' = m_lineOffset m /\
    m_highlightLine m' = m_highlightLine m.
Proof.
  induction lines as [|line rest IH]; intros s; [simpl; tauto|].
  cbv zeta. rewrite scan_cons.
  destruct (IH (scanStep e s line)) as (H1 & H2 & H3 & H4 & H5 & H6).
  rewrite H1, H2, H3, H4, H5, H6. unfold scanStep.
  destruct (sourceCodeLine line =? 0); [tauto|].
  simpl. destruct (offsetMap e !! addr line); simpl; tauto.
Qed.

Lemma foldl_max_ge (ls : list Z) : forall a, a <= foldl Z.max a ls.
Proof.
  induction ls as [|x ls IH]; intros a; simpl; [lia|].
  specialize (IH (Z.max a x)). lia.
Qed.

Lemma foldl_max_elem (ls : list Z) : forall a x, x ∈ ls -> x <= foldl Z.max a ls.
Proof.
  induction ls as [|y ls IH]; intros a x Hx; [inversion Hx|].
  simpl. apply elem_of_cons in Hx as [->|Hx].
  - pose proof (foldl_max_ge ls (Z.max a y)). lia.
  - now apply IH.
Qed.

Lemma foldl_min_le (ls : list Z) : forall a, foldl Z.min a ls <= a.
Proof.
  induction ls as [|x ls IH]; intros a; simpl; [lia|].
  specialize (IH (Z.min a x)). lia.
Qed.

Lemma foldl_min_elem (ls : list Z) : forall a x, x ∈ ls -> foldl Z.min a ls <= x.
Proof.
  induction ls as [|y ls IH]; intros a x Hx; [inversion Hx|].
  simpl. apply elem_of_cons in Hx as [->|Hx].
  - pose proof (foldl_min_le ls (Z.min a y)). lia.
  - now apply IH.
Qed.

Lemma elem_of_mappedLines (lines : list DisassemblyLine) (l : Z) :
  l ∈ mappedLines lines
  <-> l <> 0 /\ exists line, line ∈ lines /\ sourceCodeLine line = l.
Proof.
  induction lines as [|line rest IH]; simpl.
  - split; [intros H; inversion H | intros (_ & x & Hx & _); inversion Hx].
  - destruct (Z.eqb_spec (sourceCodeLine line) 0) as [Hz|Hz].
    + rewrite IH. split.
      * intros (Hl & x & Hx & Heq). split; [assumption|]. exists x. split; [now right | assumption].
      * intros (Hl & x & Hx & Heq). split; [assumption|].
        apply elem_of_cons in Hx as [->|Hx]; [congruence|]. eauto.
    + rewrite elem_of_cons, IH. split.
      * intros [->|(Hl & x & Hx & Heq)].
        -- split; [assumption|]. exists line. split; [left | reflexivity].
        -- split; [assumption|]. exists x. split; [now right | assumption].
      * intros (Hl & x & Hx & Heq).
        apply elem_of_cons in Hx as [->|Hx]; [now left | right; eauto].
Qed.

Lemma mappedLines_unmapped (lines : list DisassemblyLine) :
  (forall line, line ∈ lines -> sourceCodeLine line = 0) -> mappedLines lines = [].
Proof.
  induction lines as [|line rest IH]; intros H; [reflexivity|].
  simpl. rewrite (H line) by left. simpl. apply IH. intros x Hx. apply H. now right.
Qed.

End ScanFacts.

(** ** Indexing *)

Lemma lookupZ_Some {A : Type} (l : list A) :
  forall (i : Z) (x : A), lookupZ l i = Some x -> 0 <= i < count l.
Proof.
  unfold count. induction l as [|y l IH]; intros i x H; simpl in *; [discriminate|].
  destruct (Z.eqb_spec i 0) as [->|Hi]; [lia|].
  apply IH in H. lia.
Qed.

Lemma lookupZ_in_range {A : Type} (l : list A) :
  forall i : Z, 0 <= i < count l -> exists x, lookupZ l i = Some x.
Proof.
  unfold count. induction l as [|y l IH]; intros i H; simpl in *; [lia|].
  destruct (Z.eqb_spec i 0) as [->|Hi]; [eauto|].
  apply IH. lia.
Qed.

Lemma lookupZ_lookup {A : Type} (l : list A) :
  forall i : Z, 0 <= i -> lookupZ l i = l !! Z.to_nat i.
Proof.
  induction l as [|y l IH]; intros i Hi; simpl; [reflexivity|].
  destruct (Z.eqb_spec i 0) as [->|Hne]; [reflexivity|].
  rewrite IH by lia.
  replace (Z.to_nat i) with (S (Z.to_nat (i - 1))) by lia. reflexivity.
Qed.

Lemma listAt_Ok {A : Type} (l : list A) (i : Z) (x : A) :
  listAt l i = Ok x -> lookupZ l i = Some x /\ 0 <= i < count l.
Proof.
  unfold listAt. destruct (Z.ltb_spec i 0); [discriminate|].
  destruct (lookupZ l i) as [y|] eqn:Hy; [|discriminate].
  intros [= ->]. split; [reflexivity|]. eapply lookupZ_Some, Hy.
Qed.

Lemma listAt_lookupZ {A : Type} (l : list A) (i : Z) (x : A) :
  lookupZ l i = Some x -> listAt l i = Ok x.
Proof.
  intros H. unfold listAt. pose proof (lookupZ_Some l i x H).
  destruct (Z.ltb_spec i 0); [lia|]. now rewrite H.
Qed.

Lemma listAt_Fault {A : Type} (l : list A) (i : Z) (f : fault) :
  listAt l i = Fault f -> f = OutOfRange i /\ (i < 0 \/ count l <= i).
Proof.
  unfold listAt. destruct (Z.ltb_spec i 0) as [Hneg|Hpos].
  - intros [= <-]. split; [reflexivity | now left].
  - destruct (lookupZ l i) as [y|] eqn:Hy; [discriminate|].
    intros [= <-]. split; [reflexivity|]. right.
    destruct (Z.le_gt_cases (count l) i) as [Hle|Hgt]; [assumption|].
    destruct (lookupZ_in_range l i) as [x Hx]; [lia | congruence].
Qed.

Lemma listAt_out_of_range {A : Type} (l : list A) (i : Z) :
  count l <= i -> listAt l i = Fault (OutOfRange i).
Proof.
  intros Hle. destruct (listAt l i) as [x|f] eqn:H.
  - apply listAt_Ok in H. lia.
  - apply listAt_Fault in H as [-> _]. reflexivity.
Qed.

(** ** The signature heuristic *)

Lemma paren_or_not (lines : list string) (j : Z) :
  0 <= j < count lines -> hasParen lines j \/ lacksParen lines j.
Proof.
  intros Hj. destruct (lookupZ_in_range lines j Hj) as [text Htext].
  destruct (contains text openParen) eqn:Hc; [left | right]; exists text; tauto.
Qed.

(** The loop keeps [i = minIndex - 1], so its condition [i > minIndex - 6]
    never fails: the walk ends at the first line with a parenthesis or
    below line 0, however far that is. *)
Lemma signatureLoop_spec (lines : list string) (fuel : nat) :
  forall i : Z,
    -1 <= i < count lines -> i <= INT_MAX -> (Z.to_nat (i + 2) <= fuel)%nat ->
    exists m : Z,
      signatureLoop fuel lines i (i + 1) = Ok m /\
      0 <= m <= i + 1 /\
      (forall j, m <= j <= i -> lacksParen lines j) /\
      (m = 0 \/ hasParen lines (m - 1)).
Proof.
  induction fuel as [|fuel IH]; intros i Hi Hmax Hfuel; [lia|].
  simpl. unfold int_sub.
  rewrite (to_int_in_range (i + 1 - 6)) by (unfold is_int, INT_MIN, INT_MAX in *; lia).
  simpl. destruct (Z.gtb_spec i (i + 1 - 6)) as [_|Hle]; [|lia].
  destruct (Z.ltb_spec i 0) as [Hneg|Hpos].
  - exists (i + 1). split; [reflexivity|]. repeat split; lia.
  - rewrite (to_int_in_range (i + 1 - 1)) by (unfold is_int, INT_MIN, INT_MAX in *; lia).
    simpl. replace (i + 1 - 1) with i by lia.
    destruct (lookupZ_in_range lines i) as [text Htext]; [lia|].
    rewrite (listAt_lookupZ _ _ _ Htext). simpl.
    destruct (contains text openParen) eqn:Hc.
    + exists (i + 1). split; [reflexivity|]. repeat split; try lia.
      right. replace (i + 1 - 1) with i by lia. exists text. tauto.
    + rewrite (to_int_in_range (i - 1)) by (unfold is_int, INT_MIN, INT_MAX in *; lia).
      simpl. destruct (IH (i - 1)) as (m & Hm & Hrange & Hlack & Hfound); try lia.
      replace (i - 1 + 1) with i in Hm by lia.
      exists m. split; [assumption|]. repeat split; try lia; [|assumption].
      intros j Hj. destruct (Z.eq_dec j i) as [->|Hne].
      * exists text. tauto.
      * apply Hlack. lia.
Qed.

(** The heuristic returns whenever line [minIndex - 1] exists: it never
    runs out of fuel and never reads outside the line buffer.  The new
    [minIndex] is just after the nearest line at or before the old one that
    holds a parenthesis, and 0 when there is none. *)
Lemma includeSignature_spec (lines : list string) (minIndex : Z) :
  1 <= minIndex <= count lines -> minIndex - 1 <= INT_MAX ->
  exists m : Z,
    includeSignature lines minIndex = Ok m /\
    0 <= m <= minIndex /\
    (forall j, m <= j <= minIndex - 1 -> lacksParen lines j) /\
    (m = 0 \/ hasParen lines (m - 1)).
Proof.
  intros Hrange Hmax. unfold includeSignature, int_sub.
  rewrite (to_int_in_range (minIndex - 1)) by (unfold is_int, INT_MIN, INT_MAX in *; lia).
  simpl.
  destruct (lookupZ_in_range lines (minIndex - 1)) as [text Htext]; [lia|].
  rewrite (listAt_lookupZ _ _ _ Htext). simpl.
  destruct (contains text openParen) eqn:Hc; simpl.
  - exists minIndex. split; [reflexivity|]. repeat split; try lia.
    right. exists text. tauto.
  - destruct (signatureLoop_spec lines (S (length lines)) (minIndex - 1))
      as (m & Hm & Hm_range & Hlack & Hfound); try (unfold count in *; lia).
    replace (minIndex - 1 + 1) with minIndex in Hm by lia.
    exists m. split; [assumption|]. repeat split; try lia; assumption.
Qed.

Lemma includeSignature_Ok (lines : list string) (minIndex m : Z) :
  includeSignature lines minIndex = Ok m ->
  1 <= minIndex <= count lines /\
  0 <= m <= minIndex /\
  (forall j, m <= j <= minIndex - 1 -> lacksParen lines j) /\
  (m = 0 \/ hasParen lines (m - 1)).
Proof.
  intros H.
  assert (1 <= minIndex <= count lines /\ minIndex - 1 <= INT_MAX) as [Hrange Hmax].
  { unfold includeSignature in H.
    apply bind_Ok in H as (index & Hindex & H).
    apply int_sub_Ok in Hindex as [-> [_ Hhi]].
    apply bind_Ok in H as (text & Htext & _).
    apply listAt_Ok in Htext as [_ Hin]. lia. }
  destruct (includeSignature_spec lines minIndex Hrange Hmax) as (m' & Hm' & Hspec).
  rewrite Hm' in H. inversion H; subst. tauto.
Qed.

(** The walk never reads a line below line 0: the only read that can fail
    is the first one, of a line past the end of the buffer. *)
Lemma includeSignature_reads_from_0 (lines : list string) (minIndex j : Z) :
  1 <= minIndex ->
  includeSignature lines minIndex = Fault (OutOfRange j) ->
  j = minIndex - 1 /\ count lines <= j.
Proof.
  intros Hpos H.
  destruct (Z.le_gt_cases minIndex (count lines)) as [Hle|Hgt].
  - destruct (Z.le_gt_cases (minIndex - 1) INT_MAX) as [Hmax|Hmax].
    + destruct (includeSignature_spec lines minIndex) as (m & Hm & _); [lia | lia |].
      congruence.
    + unfold includeSignature, int_sub, to_int in H.
      destruct (Z.leb_spec (minIndex - 1) INT_MAX); [lia|].
      rewrite andb_false_r in H. discriminate.
  - unfold includeSignature, int_sub, to_int in H.
    destruct ((INT_MIN <=? minIndex - 1) && (minIndex - 1 <=? INT_MAX)); [|discriminate].
    simpl in H. rewrite listAt_out_of_range in H by lia.
    simpl in H. inversion H; subst. lia.
Qed.

(** ** Loading a disassembly *)

Lemma mapResult_Ok {A B : Type} (f : A -> result B) (l : list A) :
  forall ys, mapResult f l = Ok ys -> Forall2 (fun x y => f x = Ok y) l ys.
Proof.
  induction l as [|x l IH]; intros ys H; simpl in H.
  - inversion H. constructor.
  - apply bind_Ok in H as (y & Hy & H).
    apply bind_Ok in H as (ys' & Hys & H).
    inversion H; subst. constructor; [assumption | now apply IH].
Qed.

Lemma firstLineOfBlock_Ok (document : string) (i : Z) (line : QTextLine) :
  firstLineOfBlock document i = Ok line ->
  exists text, lookupZ (blocks document) i = Some text /\ line = mkTextLine i text.
Proof.
  unfold firstLineOfBlock. destruct (i <? 0); [discriminate|].
  destruct (lookupZ (blocks document) i) as [text|]; [|discriminate].
  intros [= <-]. eauto.
Qed.

Lemma isEmpty_true (s : string) : isEmpty s = true <-> s = EmptyString.
Proof. destruct s; simpl; split; congruence. Qed.

(** What the first part of [setDisassembly] leaves in the model and in the
    two locals. *)
Lemma resetAndScan_spec (m : SourceCodeModel) (sourceCode : string) (d : DisassemblyOutput) :
  let s := resetAndScan m sourceCode d in
  let e := entry (m_callerCalleeResults m) (symbol d) in
  maxIndex s = foldl Z.max 0 (mappedLines (disassemblyLines d)) /\
  minIndex s = foldl Z.min INT_MAX (mappedLines (disassemblyLines d)) /\
  m_costs (scanned s)
  = Costs.addAll (Costs.initializeCostsFrom (selfCosts (m_callerCalleeResults m)))
                 (costRecords e (disassemblyLines d)) /\
  m_validLineNumbers (scanned s) = list_to_set (mappedLines (disassemblyLines d)) /\
  m_document (scanned s) = sourceCode /\
  m_sourceCode (scanned s) = m_sourceCode m /\
  m_callerCalleeResults (scanned s) = m_callerCalleeResults m /\
  m_numTypes (scanned s) = m_numTypes m /\
  m_lineOffset (scanned s) = m_lineOffset m /\
  m_highlightLine (scanned s) = m_highlightLine m.
Proof.
  cbv zeta. unfold resetAndScan.
  rewrite scan_maxIndex, scan_minIndex, scan_costs, scan_validLineNumbers.
  match goal with |- context [scan ?e ?l ?s] =>
    destruct (scan_frame e l s) as (H1 & H2 & H3 & H4 & H5 & H6) end.
  rewrite H1, H2, H3, H4, H5, H6. simpl.
  rewrite (left_id_L ∅ (∪)). repeat split; reflexivity.
Qed.

(** What the second part does when it returns. *)
Lemma buildRows_Ok (lines : list string) (s : Scan) (m' : SourceCodeModel) :
  buildRows lines s = Ok m' ->
  exists lo,
    includeSignature lines (minIndex s) = Ok lo /\
    is_int (maxIndex s + 1) /\
    mapResult (firstLineOfBlock (m_document (scanned s)))
              (seqZ (lo - 1) (maxIndex s + 1 - (lo - 1))) = Ok (m_sourceCode m') /\
    m_lineOffset m' = lo /\
    m_costs m' = m_costs (scanned s) /\
    m_validLineNumbers m' = m_validLineNumbers (scanned s) /\
    m_document m' = m_document (scanned s) /\
    m_callerCalleeResults m' = m_callerCalleeResults (scanned s) /\
    m_numTypes m' = m_numTypes (scanned s) /\
    m_highlightLine m' = m_highlightLine (scanned s).
Proof.
  unfold buildRows. intros H.
  apply bind_Ok in H as (lo & Hlo & H).
  apply bind_Ok in H as (first & Hfirst & H).
  apply int_sub_Ok in Hfirst as [-> _].
  apply bind_Ok in H as (bound & Hbound & H).
  apply int_add_Ok in Hbound as [-> Hint].
  apply bind_Ok in H as (pushed & Hpushed & H).
  inversion H; subst; clear H. simpl in *.
  exists lo. repeat split; try assumption; try reflexivity; apply Hint.
Qed.

Lemma setDisassembly_loaded (fs : FileSystem) (m m' : SourceCodeModel)
    (d : DisassemblyOutput) (sourceCode : string) (signals : list Signal) :
  sourceFileName d <> EmptyString ->
  fs (sourceFileName d) = Some sourceCode ->
  setDisassembly fs m d = Ok (m', signals) ->
  buildRows (split sourceCode) (resetAndScan m sourceCode d) = Ok m' /\
  signals = [ModelAboutToBeReset; ModelReset].
Proof.
  intros Hname Hfile. unfold setDisassembly.
  destruct (isEmpty (sourceFileName d)) eqn:He; [apply isEmpty_true in He; contradiction|].
  rewrite Hfile. intros H.
  apply bind_Ok in H as (m1 & Hm1 & H). inversion H; subst. tauto.
Qed.

(** The rows of a loaded model: row [r] holds the first line of block
    [lo - 1 + r], for the [hi + 1 - (lo - 1)] blocks from [lo - 1]. *)
Lemma pushed_rows (document : string) (first len : Z) (rows : list QTextLine) :
  mapResult (firstLineOfBlock document) (seqZ first len) = Ok rows ->
  count rows = Z.max 0 len /\
  forall r, 0 <= r < count rows ->
    exists text,
      lookupZ (blocks document) (first + r) = Some text /\
      lookupZ rows r = Some (mkTextLine (first + r) text).
Proof.
  intros H. apply mapResult_Ok in H.
  pose proof (Forall2_length _ _ _ H) as Hlen. rewrite length_seqZ in Hlen.
  unfold count. split; [lia|].
  intros r Hr.
  destruct (lookup_lt_is_Some_2 rows (Z.to_nat r)) as [line Hline]; [lia|].
  assert (seqZ first len !! Z.to_nat r = Some (first + r)) as Hseq.
  { rewrite lookup_seqZ_lt by lia. f_equal. lia. }
  destruct (Forall2_lookup_l _ _ _ _ _ H Hseq) as (line' & Hline' & Hblock).
  rewrite Hline in Hline'. inversion Hline'; subst line'.
  apply firstLineOfBlock_Ok in Hblock as (text & Htext & ->).
  exists text. split; [assumption|].
  rewrite lookupZ_lookup by lia. assumption.
Qed.

(** The fuel of the signature loop is never used up: the embedding loses
    no run of [setDisassembly]. *)
Lemma includeSignature_fuel_suffices (lines : list string) (minIndex : Z) :
  includeSignature lines minIndex <> Fault OutOfFuel.
Proof.
  destruct (Z.le_gt_cases 1 minIndex) as [Hlo|Hlo];
    [destruct (Z.le_gt_cases minIndex (count lines)) as [Hhi|Hhi]|].
  - destruct (Z.le_gt_cases (minIndex - 1) INT_MAX) as [Hmax|Hmax].
    + destruct (includeSignature_spec lines minIndex) as (m & -> & _);
        [lia | assumption | discriminate].
    + unfold includeSignature, int_sub, to_int.
      destruct (Z.leb_spec (minIndex - 1) INT_MAX); [lia|].
      rewrite andb_false_r. discriminate.
  - unfold includeSignature, int_sub, to_int.
    destruct ((INT_MIN <=? minIndex - 1) && (minIndex - 1 <=? INT_MAX)); [|discriminate].
    simpl. rewrite listAt_out_of_range by lia. discriminate.
  - unfold includeSignature, int_sub, to_int.
    destruct ((INT_MIN <=? minIndex - 1) && (minIndex - 1 <=? INT_MAX)); [|discriminate].
    simpl. unfold listAt. destruct (Z.ltb_spec (minIndex - 1) 0); [discriminate | lia].
Qed.

Lemma mapResult_firstLine_Fault (document : string) (l : list Z) (f : fault) :
  mapResult (firstLineOfBlock document) l = Fault f -> exists i, f = NullLayout i.
Proof.
  induction l as [|x l IH]; simpl; [discriminate|].
  unfold firstLineOfBlock at 1.
  destruct (x <? 0); [intros [= <-]; eauto|].
  destruct (lookupZ (blocks document) x); [|intros [= <-]; eauto].
  simpl. destruct (mapResult _ l) as [ys|g]; [discriminate|].
  simpl. intros [= <-]. now apply IH.
Qed.

Lemma setDisassembly_fuel_suffices (fs : FileSystem) (m : SourceCodeModel)
    (d : DisassemblyOutput) :
  setDisassembly fs m d <> Fault OutOfFuel.
Proof.
  unfold setDisassembly.
  destruct (isEmpty (sourceFileName d)); [discriminate|].
  destruct (fs (sourceFileName d)) as [sourceCode|]; [|discriminate].
  unfold buildRows.
  pose proof (includeSignature_fuel_suffices (split sourceCode)
                (minIndex (resetAndScan m sourceCode d))) as Hfuel.
  destruct (includeSignature _ _) as [lo|f]; [|simpl; congruence].
  simpl. unfold int_sub, int_add, to_int.
  destruct (_ && _); [|discriminate]. simpl.
  destruct (_ && _); [|discriminate]. simpl.
  destruct (mapResult _ _) as [pushed|f] eqn:Hpushed; [discriminate|].
  apply mapResult_firstLine_Fault in Hpushed as [i ->]. discriminate.
Qed.

(** The cost records of a scan belong to mapped lines. *)
Lemma costRecords_mapped (e : CallerCalleeEntry) (lines : list DisassemblyLine)
    (r : Z * Costs.ItemCost) :
  r ∈ costRecords e lines -> fst r ∈ mappedLines lines.
Proof.
  induction lines as [|line rest IH]; simpl; [intros H; inversion H|].
  destruct (sourceCodeLine line =? 0); [assumption|].
  destruct (offsetMap e !! addr line).
  - rewrite !elem_of_cons. intros [->|Hr]; [now left | right; now apply IH].
  - intros Hr. right. now apply IH.
Qed.

(** X18. In a loaded model the total of every cost type is the sum of the
    costs of that type over the valid lines. *)
Lemma loaded_total_is_sum_over_valid_lines (fs : FileSystem) (m m' : SourceCodeModel)
    (d : DisassemblyOutput) (sourceCode : string) (signals : list Signal) (type : Z) :
  sourceFileName d <> EmptyString ->
  fs (sourceFileName d) = Some sourceCode ->
  setDisassembly fs m d = Ok (m', signals) ->
  Costs.totalCost (m_costs m') type
  = Costs.sumOver (m_validLineNumbers m') (Costs.cost (m_costs m') type).
Proof.
  intros Hname Hfile Hload.
  destruct (setDisassembly_loaded _ _ _ _ _ _ Hname Hfile Hload) as [Hbuild _].
  apply buildRows_Ok in Hbuild as (lo & _ & _ & _ & _ & Hcosts & Hvalid & _).
  destruct (resetAndScan_spec m sourceCode d) as (_ & _ & Hcosts' & Hvalid' & _).
  rewrite Hcosts, Hvalid, Hcosts', Hvalid'.
  apply initialized_total. intros r Hr.
  apply elem_of_list_to_set. eapply costRecords_mapped, Hr.
Qed.

(** C7. For a disassembly whose instructions carry the source-line mappings
    5, 5, 7, 0, 9 in this order, the scan of [setDisassembly] skips the
    unmapped instruction and leaves [minIndex = 5], [maxIndex = 9] and the
    valid lines 5, 7 and 9, whatever the addresses, the costs and the model
    before the call. *)
Theorem scan_of_5_5_7_0_9 (m : SourceCodeModel) (sourceCode : string) (d : DisassemblyOutput) :
  sourceCodeLine <$> disassemblyLines d = [5; 5; 7; 0; 9] ->
  let s := resetAndScan m sourceCode d in
  minIndex s = 5 /\ maxIndex s = 9 /\
  m_validLineNumbers (scanned s) = {[5; 7; 9]} /\
  mappedLines (disassemblyLines d) = [5; 5; 7; 9].
Proof.
  intros Hlines. cbv zeta.
  assert (mappedLines (disassemblyLines d) = [5; 5; 7; 9]) as Hmapped.
  { destruct (disassemblyLines d) as [|l1 [|l2 [|l3 [|l4 [|l5 [|l6 rest]]]]]];
      try discriminate Hlines.
    simpl in Hlines. injection Hlines as H1 H2 H3 H4 H5. simpl.
    rewrite H1, H2, H3, H4, H5. reflexivity. }
  destruct (resetAndScan_spec m sourceCode d) as (Hmax & Hmin & _ & Hvalid & _).
  rewrite Hmax, Hmin, Hvalid, Hmapped.
  repeat split; reflexivity.
Qed.

(** ** A disassembly without mapped lines *)

(** The scan leaves both locals at their initial values. *)
Lemma unmapped_scan_keeps_sentinels (m : SourceCodeModel) (sourceCode : string)
    (d : DisassemblyOutput) :
  (forall line, line ∈ disassemblyLines d -> sourceCodeLine line = 0) ->
  minIndex (resetAndScan m sourceCode d) = INT_MAX /\
  maxIndex (resetAndScan m sourceCode d) = 0.
Proof.
  intros Hunmapped.
  destruct (resetAndScan_spec m sourceCode d) as (Hmax & Hmin & _).
  rewrite Hmax, Hmin, (mappedLines_unmapped _ Hunmapped). split; reflexivity.
Qed.

(** X16. For a disassembly without mapped lines and a file that opens, the
    first read of the line buffer after the scan is [lines[INT_MAX - 1]],
    outside every buffer of fewer than [INT_MAX] lines: the call faults
    there, whatever the model and the file. *)
Lemma unmapped_load_reads_out_of_range (fs : FileSystem) (m : SourceCodeModel)
    (d : DisassemblyOutput) (sourceCode : string) :
  sourceFileName d <> EmptyString ->
  fs (sourceFileName d) = Some sourceCode ->
  (forall line, line ∈ disassemblyLines d -> sourceCodeLine line = 0) ->
  count (split sourceCode) < INT_MAX ->
  setDisassembly fs m d = Fault (OutOfRange (INT_MAX - 1)).
Proof.
  intros Hname Hfile Hunmapped Hsize. unfold setDisassembly.
  destruct (isEmpty (sourceFileName d)) eqn:He; [apply isEmpty_true in He; contradiction|].
  rewrite Hfile. unfold buildRows.
  destruct (unmapped_scan_keeps_sentinels m sourceCode d Hunmapped) as [-> _].
  unfold includeSignature.
  replace (int_sub INT_MAX 1) with (Ok (A := Z) (INT_MAX - 1)) by reflexivity.
  cbn [bind]. rewrite listAt_out_of_range by lia. reflexivity.
Qed.

(** C3. A file of one line and a disassembly of two unmapped instructions:
    the scan leaves [minIndex] at [INT_MAX] and [maxIndex] at 0, and the
    signature heuristic then reads line 2147483646 of a buffer of two
    lines: the call does not complete with its accesses in bounds. *)
Theorem unmapped_disassembly_reads_past_the_buffer :
  let d := Examples.unmappedDisassembly in
  Examples.files (sourceFileName d) = Some Examples.tinyC /\
  Forall (fun line => sourceCodeLine line = 0) (disassemblyLines d) /\
  minIndex (resetAndScan Examples.model Examples.tinyC d) = INT_MAX /\
  maxIndex (resetAndScan Examples.model Examples.tinyC d) = 0 /\
  count (split Examples.tinyC) = 2 /\
  setDisassembly Examples.files Examples.model d = Fault (OutOfRange 2147483646).
Proof.
  cbv zeta. split; [reflexivity|]. split; [repeat constructor|].
  split; [reflexivity|]. split; [reflexivity|]. split; [reflexivity|].
  vm_compute. reflexivity.
Qed.

(** ** How far the signature heuristic walks *)

Lemma paren_exclusive (lines : list string) (j : Z) :
  hasParen lines j -> lacksParen lines j -> False.
Proof. intros (t1 & H1 & Hyes) (t2 & H2 & Hno). congruence. Qed.

(** X15. The signature walk stops just after the nearest line at or before
    line [minIndex] that holds an opening parenthesis, at any distance
    from where it started: with the parenthesis on line [k] (index
    [k - 1]) and none on the lines after it up to line [minIndex], the new
    [minIndex] is [k]. *)
Lemma includeSignature_nearest_parenthesis (lines : list string) (minIndex k : Z) :
  1 <= k <= minIndex -> minIndex <= count lines -> minIndex - 1 <= INT_MAX ->
  hasParen lines (k - 1) ->
  (forall j, k <= j <= minIndex - 1 -> lacksParen lines j) ->
  includeSignature lines minIndex = Ok k.
Proof.
  intros Hk Hcount Hmax Hparen Hlack.
  destruct (includeSignature_spec lines minIndex) as (m & Hm & Hrange & Hlack' & Hfound);
    [lia | assumption |].
  rewrite Hm. f_equal.
  destruct (Z.lt_trichotomy m k) as [Hlt|[Heq|Hgt]]; [|assumption|].
  - exfalso. apply (paren_exclusive lines (k - 1)); [assumption|]. apply Hlack'. lia.
  - exfalso. destruct Hfound as [Hz|Hfound]; [lia|].
    apply (paren_exclusive lines (m - 1)); [assumption|]. apply Hlack. lia.
Qed.

(** Without any parenthesis up to the starting line, it walks down to 0. *)
Lemma includeSignature_no_parenthesis (lines : list string) (minIndex : Z) :
  1 <= minIndex <= count lines -> minIndex - 1 <= INT_MAX ->
  (forall j, 0 <= j <= minIndex - 1 -> lacksParen lines j) ->
  includeSignature lines minIndex = Ok 0.
Proof.
  intros Hrange Hmax Hlack.
  destruct (includeSignature_spec lines minIndex) as (m & Hm & Hm_range & _ & Hfound);
    [assumption | assumption |].
  rewrite Hm. f_equal. destruct Hfound as [Hz|Hfound]; [assumption|].
  exfalso. apply (paren_exclusive lines (m - 1)); [assumption|]. apply Hlack.
  destruct Hfound as (text & Htext & _). apply lookupZ_Some in Htext. lia.
Qed.

(** C2. A function whose signature spreads over seven lines, the opening
    parenthesis on the first: the scan leaves [minIndex = 8], line 7 holds
    no parenthesis, and the heuristic decrements [minIndex] seven times,
    down to 1, more than the five steps of its loop bound. *)
Theorem signature_walk_passes_its_bound :
  let lines := split Examples.wideC in
  minIndex (resetAndScan Examples.model Examples.wideC Examples.wideDisassembly) = 8 /\
  lacksParen lines (8 - 1) /\
  includeSignature lines 8 = Ok 1 /\
  5 < 8 - 1 /\
  (let* loaded := setDisassembly Examples.files Examples.model Examples.wideDisassembly in
   Ok (m_lineOffset (fst loaded))) = Ok 1.
Proof.
  cbv zeta. split; [reflexivity|]. split.
  - eexists. split; reflexivity.
  - split; [reflexivity|]. split; [lia|]. vm_compute. reflexivity.
Qed.

(** ** The rows of a loaded model *)

Lemma mapped_between_min_and_max (lines : list Z) (lo hi : Z) :
  lines <> [] -> foldl Z.min hi lines <= foldl Z.max lo lines.
Proof.
  destruct lines as [|x rest]; [congruence|]. intros _.
  pose proof (foldl_min_elem (x :: rest) hi x) as Hmin.
  pose proof (foldl_max_elem (x :: rest) lo x) as Hmax.
  assert (x ∈ x :: rest) as Hx by left.
  specialize (Hmin Hx). specialize (Hmax Hx). lia.
Qed.

(** In a loaded model the line number of every row is an [int]. *)
Lemma loaded_rows_are_ints (lines : list string) (s : Scan) (m' : SourceCodeModel) (r : Z) :
  buildRows lines s = Ok m' ->
  0 <= r < count (m_sourceCode m') ->
  is_int (r + m_lineOffset m') /\ 1 <= m_lineOffset m'.
Proof.
  intros Hbuild Hr.
  apply buildRows_Ok in Hbuild as (lo & Hlo & Hint & Hrows & Hoff & _).
  apply pushed_rows in Hrows as [Hcount Hrows].
  destruct (Hrows 0) as (text & Htext & _); [lia|].
  apply lookupZ_Some in Htext.
  rewrite Hoff. unfold is_int, INT_MIN, INT_MAX in *. lia.
Qed.

(** X17. What the row loop builds.  After a successful load of a disassembly
    with a mapped line, the model has [maxIndex - minIndex + 2] rows: row
    [r] holds the text of source line [minIndex + r] (block
    [minIndex + r - 1] of the file) and [lineForIndex] maps it to
    [minIndex + r].  The lower bound of the loop is the block of line
    [minIndex], its upper bound [maxIndex + 1] is a line number used as a
    block number: the rows run from line [minIndex] to line
    [maxIndex + 1], one line past the range. *)
Lemma rows_span_range_and_next_line (fs : FileSystem) (m m' : SourceCodeModel)
    (d : DisassemblyOutput) (sourceCode : string) (signals : list Signal) :
  sourceFileName d <> EmptyString ->
  fs (sourceFileName d) = Some sourceCode ->
  mappedLines (disassemblyLines d) <> [] ->
  setDisassembly fs m d = Ok (m', signals) ->
  exists lo hi,
    displayRange m sourceCode d = Ok (lo, hi) /\
    m_lineOffset m' = lo /\
    rowCount m' invalidIndex = hi - lo + 2 /\
    forall index, 0 <= row index < rowCount m' invalidIndex ->
      lineForIndex m' index = Ok (lo + row index) /\
      exists text,
        lookupZ (split sourceCode) (lo + row index - 1) = Some text /\
        listAt (m_sourceCode m') (row index) = Ok (mkTextLine (lo + row index - 1) text).
Proof.
  intros Hname Hfile Hmapped Hload.
  destruct (setDisassembly_loaded _ _ _ _ _ _ Hname Hfile Hload) as [Hbuild _].
  pose proof Hbuild as Hbuild'.
  apply buildRows_Ok in Hbuild as (lo & Hlo & Hint & Hrows & Hoff & _).
  destruct (resetAndScan_spec m sourceCode d) as (Hmax & Hmin & _ & _ & Hdoc & _).
  exists lo, (maxIndex (resetAndScan m sourceCode d)).
  split; [unfold displayRange; now rewrite Hlo|].
  split; [assumption|].
  rewrite Hdoc in Hrows. apply pushed_rows in Hrows as [Hcount Hrows].
  pose proof (includeSignature_Ok _ _ _ Hlo) as (_ & Hlo_le & _).
  pose proof (mapped_between_min_and_max _ 0 INT_MAX Hmapped) as Hle.
  rewrite <- Hmax, <- Hmin in Hle.
  unfold rowCount. simpl.
  split; [lia|].
  intros index Hr.
  destruct (loaded_rows_are_ints _ _ _ (row index) Hbuild' Hr) as [Hrow_int _].
  split.
  - unfold lineForIndex, int_add. rewrite to_int_in_range by assumption.
    rewrite Hoff. f_equal. lia.
  - destruct (Hrows (row index) Hr) as (text & Htext & Hrow).
    replace (lo - 1 + row index) with (lo + row index - 1) in * by lia.
    exists text. split; [assumption|]. now apply listAt_lookupZ.
Qed.

(** ** Queries on the model *)

Section QueryFacts.
Context {decls : Declarations}.

Lemma columns_differ :
  SourceCodeColumn <> SourceCodeLineNumber /\
  SourceCodeColumn <> Highlight /\
  SourceCodeLineNumber <> Highlight.
Proof.
  pose proof columns_distinct as Hnd.
  apply NoDup_cons in Hnd as [H1 Hnd]. apply NoDup_cons in Hnd as [H2 _].
  repeat split; intros Heq.
  - apply H1. rewrite Heq. left.
  - apply H1. rewrite Heq. right. left.
  - apply H2. rewrite Heq. left.
Qed.

Lemma hasIndex_true (m : SourceCodeModel) (r c : Z) :
  hasIndex m r c invalidIndex = Ok true ->
  0 <= r < count (m_sourceCode m) /\
  exists columns, columnCount m invalidIndex = Ok columns /\ 0 <= c < columns.
Proof.
  unfold hasIndex, rowCount. simpl.
  destruct (Z.ltb_spec r 0); [discriminate|].
  destruct (Z.ltb_spec c 0); [discriminate|]. simpl.
  destruct (Z.ltb_spec r (count (m_sourceCode m))); [|discriminate].
  intros Hbind. apply bind_Ok in Hbind as (columns & Hcolumns & Hlt).
  injection Hlt as Hlt. apply Z.ltb_lt in Hlt.
  split; [lia|]. exists columns. split; [assumption | lia].
Qed.

(** [data] on an index of the model and a role that a cell answers: the
    two guards pass and the row is read in bounds. *)
Lemma data_of_cell (m : SourceCodeModel) (index : QModelIndex) (role : Role) :
  hasIndex m (row index) (column index) invalidIndex = Ok true ->
  cellRole role = true ->
  exists line,
    listAt (m_sourceCode m) (row index) = Ok line /\
    data m index role =
      if column index =? SourceCodeColumn then Ok (QLine line)
      else if column index =? SourceCodeLineNumber then
        let* number := int_add (row index) (m_lineOffset m) in
        if bool_decide (number ∈ m_validLineNumbers m) then Ok (QInt number) else Ok (QInt 0)
      else if column index =? Highlight then
        let* number := int_add (row index) (m_lineOffset m) in
        Ok (QBool (number =? m_highlightLine m))
      else
        let* type := int_sub (column index) COLUMN_COUNT in
        if type <? m_numTypes m then
          let* number := int_add (row index) (m_lineOffset m) in
          let cost := Costs.cost (m_costs m) type number in
          let totalCost := Costs.totalCost (m_costs m) type in
          if Role_eqb role CostRole then Ok (QCost cost)
          else if Role_eqb role TotalCostRole then Ok (QCost totalCost)
          else Ok (QText (formatCostRelative cost totalCost true))
        else Ok QInvalid.
Proof.
  intros Hhas Hrole.
  destruct (hasIndex_true _ _ _ Hhas) as (Hrow & _).
  destruct (lookupZ_in_range (m_sourceCode m) (row index) Hrow) as [line Hline].
  exists line. split; [now apply listAt_lookupZ|].
  unfold data, parent. rewrite Hhas. simpl.
  destruct (Z.gtb_spec (row index) (count (m_sourceCode m))); [lia|].
  destruct (Z.ltb_spec (row index) 0); [lia|]. simpl.
  rewrite (listAt_lookupZ _ _ _ Hline). simpl. rewrite Hrole. reflexivity.
Qed.

(** C5. After a load, a source line is valid exactly when it is not 0 and
    some instruction of the disassembly maps to it, whether or not the
    address of the instruction has a cost entry; and the cell of a row in
    the [SourceCodeLineNumber] column holds the line number of the row when
    that line is valid and 0 otherwise.  (The three enumerators that name
    columns are distinct.) *)
Theorem valid_lines_are_the_mapped_lines (fs : FileSystem) (m m' : SourceCodeModel)
    (d : DisassemblyOutput) (sourceCode : string) (signals : list Signal) :
  sourceFileName d <> EmptyString ->
  fs (sourceFileName d) = Some sourceCode ->
  setDisassembly fs m d = Ok (m', signals) ->
  (forall l,
     l ∈ m_validLineNumbers m'
     <-> l <> 0 /\ exists line, line ∈ disassemblyLines d /\ sourceCodeLine line = l) /\
  (forall index role,
     hasIndex m' (row index) (column index) invalidIndex = Ok true ->
     cellRole role = true ->
     column index = SourceCodeLineNumber ->
     lineForIndex m' index = Ok (row index + m_lineOffset m') /\
     data m' index role
     = Ok (QInt (if bool_decide (row index + m_lineOffset m' ∈ m_validLineNumbers m')
                 then row index + m_lineOffset m' else 0))).
Proof.
  intros Hname Hfile Hload.
  destruct (setDisassembly_loaded _ _ _ _ _ _ Hname Hfile Hload) as [Hbuild _].
  pose proof Hbuild as Hbuild'.
  apply buildRows_Ok in Hbuild as (lo & _ & _ & _ & _ & _ & Hvalid & _).
  destruct (resetAndScan_spec m sourceCode d) as (_ & _ & _ & Hset & _).
  split.
  - intros l. rewrite Hvalid, Hset, elem_of_list_to_set. apply elem_of_mappedLines.
  - intros index role Hhas Hrole Hcolumn.
    destruct (hasIndex_true _ _ _ Hhas) as (Hrow & _).
    destruct (loaded_rows_are_ints _ _ _ _ Hbuild' Hrow) as [Hint _].
    assert (int_add (row index) (m_lineOffset m') = Ok (row index + m_lineOffset m'))
      as Hadd by (now apply to_int_in_range).
    split; [exact Hadd|].
    destruct (data_of_cell m' index role Hhas Hrole) as (line & _ & ->).
    destruct columns_differ as (Hne & _).
    rewrite Hcolumn.
    destruct (Z.eqb_spec SourceCodeLineNumber SourceCodeColumn); [congruence|].
    rewrite Z.eqb_refl, Hadd. simpl.
    destruct (bool_decide _); reflexivity.
Qed.

(** C9. On an index whose row or column is outside the model [data]
    returns the empty value, and so does [headerData] on a section
    outside [0, COLUMN_COUNT + numTypes): both return, neither faults. *)
Theorem out_of_range_queries_are_empty (m : SourceCodeModel) (columns : Z) :
  columnCount m invalidIndex = Ok columns ->
  (forall index role,
     row index < 0 \/ row index >= rowCount m invalidIndex \/
     column index < 0 \/ column index >= columns ->
     data m index role = Ok QInvalid) /\
  (forall section orientation role,
     section < 0 \/ section >= COLUMN_COUNT + m_numTypes m ->
     headerData m section orientation role = Ok QInvalid).
Proof.
  intros Hcolumns. split.
  - intros index role Hout.
    assert (hasIndex m (row index) (column index) invalidIndex = Ok false) as Hhas.
    { unfold hasIndex. rewrite Hcolumns. unfold rowCount in *. simpl in *.
      destruct (Z.ltb_spec (row index) 0); [reflexivity|].
      destruct (Z.ltb_spec (column index) 0); [reflexivity|]. simpl.
      destruct (Z.ltb_spec (row index) (count (m_sourceCode m))); [|reflexivity].
      destruct (Z.ltb_spec (column index) columns); [lia | reflexivity]. }
    unfold data, parent. rewrite Hhas. reflexivity.
  - intros section orientation role Hout.
    unfold columnCount in Hcolumns. simpl in Hcolumns.
    apply int_add_Ok in Hcolumns as [-> Hint].
    unfold headerData.
    destruct (Z.ltb_spec section 0); [reflexivity|].
    unfold int_add. rewrite to_int_in_range by assumption. simpl.
    destruct (Z.geb_spec section (COLUMN_COUNT + m_numTypes m)); [reflexivity | lia].
Qed.

(** C10. [updateHighlighting] writes [m_highlightLine] and nothing else:
    the source lines, the costs, the valid lines, the line offset and the
    row and column counts are as before.  Afterwards the [Highlight] cell
    of a row [r] holds true exactly when [r + m_lineOffset] is the line
    that was passed, and holds false whenever that sum is an [int]
    different from it. *)
Theorem updateHighlighting_sets_the_highlight_only (m : SourceCodeModel) (line : Z) :
  is_int line ->
  let m' := fst (updateHighlighting m line) in
  m_highlightLine m' = line /\
  m_sourceCode m' = m_sourceCode m /\
  m_costs m' = m_costs m /\
  m_validLineNumbers m' = m_validLineNumbers m /\
  m_lineOffset m' = m_lineOffset m /\
  m_callerCalleeResults m' = m_callerCalleeResults m /\
  m_document m' = m_document m /\
  m_numTypes m' = m_numTypes m /\
  (forall p, rowCount m' p = rowCount m p /\ columnCount m' p = columnCount m p) /\
  (forall index role,
     hasIndex m' (row index) (column index) invalidIndex = Ok true ->
     cellRole role = true ->
     column index = Highlight ->
     (data m' index role = Ok (QBool true) <-> row index + m_lineOffset m = line) /\
     (is_int (row index + m_lineOffset m) ->
      data m' index role = Ok (QBool (row index + m_lineOffset m =? line)))).
Proof.
  intros Hline. cbv zeta. simpl.
  repeat (split; [reflexivity|]).
  split; [intros p; split; reflexivity|].
  intros index role Hhas Hrole Hcolumn.
  destruct (data_of_cell _ index role Hhas Hrole) as (text & _ & Hdata).
  destruct columns_differ as (Hne1 & Hne2 & Hne3).
  rewrite Hcolumn in Hdata.
  destruct (Z.eqb_spec Highlight SourceCodeColumn); [congruence|].
  destruct (Z.eqb_spec Highlight SourceCodeLineNumber); [congruence|].
  rewrite Z.eqb_refl in Hdata. simpl in Hdata. rewrite Hdata.
  unfold int_add, to_int.
  destruct ((INT_MIN <=? row index + m_lineOffset m)
            && (row index + m_lineOffset m <=? INT_MAX)) eqn:Hrange; simpl.
  - split.
    + split.
      * intros [= Heq]. now apply Z.eqb_eq.
      * intros Heq. apply Z.eqb_eq in Heq. now rewrite Heq.
    + reflexivity.
  - split.
    + split; [discriminate|]. intros Heq. exfalso.
      rewrite Heq in Hrange. unfold is_int in Hline.
      apply andb_false_iff in Hrange as [Hlo|Hhi];
        [apply Z.leb_gt in Hlo | apply Z.leb_gt in Hhi]; lia.
    + intros [Hlo Hhi]. exfalso.
      apply andb_false_iff in Hrange as [H|H]; apply Z.leb_gt in H; lia.
Qed.

End QueryFacts.

(** ** Early returns and reloads *)

(** C8. When the name of the source file is empty or the file cannot be
    opened for reading, [setDisassembly] returns at once: the model is the
    one it was given, in every component, and no signal is emitted. *)
Theorem unopened_file_leaves_the_model (fs : FileSystem) (m : SourceCodeModel)
    (d : DisassemblyOutput) :
  sourceFileName d = EmptyString \/ fs (sourceFileName d) = None ->
  setDisassembly fs m d = Ok (m, []).
Proof.
  intros [Hname|Hfile]; unfold setDisassembly.
  - rewrite Hname. reflexivity.
  - destruct (isEmpty (sourceFileName d)); [reflexivity|]. now rewrite Hfile.
Qed.

Lemma setDisassembly_keeps_results (fs : FileSystem) (m m' : SourceCodeModel)
    (d : DisassemblyOutput) (signals : list Signal) :
  setDisassembly fs m d = Ok (m', signals) ->
  m_callerCalleeResults m' = m_callerCalleeResults m /\
  m_numTypes m' = m_numTypes m /\
  m_highlightLine m' = m_highlightLine m.
Proof.
  unfold setDisassembly.
  destruct (isEmpty (sourceFileName d)); [intros [= <- _]; tauto|].
  destruct (fs (sourceFileName d)) as [sourceCode|]; [|intros [= <- _]; tauto].
  intros H. apply bind_Ok in H as (m1 & Hbuild & H). injection H as <- _.
  apply buildRows_Ok in Hbuild as (lo & _ & _ & _ & _ & _ & _ & _ & Hres & Hnum & Hhl).
  destruct (resetAndScan_spec m sourceCode d) as (_ & _ & _ & _ & _ & _ & Hres' & Hnum' & _ & Hhl').
  rewrite Hres, Hnum, Hhl. tauto.
Qed.

(** The second part of a load reads the two locals, the document, the
    costs and the valid lines of the scan, and nothing else. *)
Lemma buildRows_agree (lines : list string) (s1 s2 : Scan) (m1 : SourceCodeModel) :
  maxIndex s1 = maxIndex s2 ->
  minIndex s1 = minIndex s2 ->
  m_document (scanned s1) = m_document (scanned s2) ->
  m_costs (scanned s1) = m_costs (scanned s2) ->
  m_validLineNumbers (scanned s1) = m_validLineNumbers (scanned s2) ->
  buildRows lines s1 = Ok m1 ->
  exists m2, buildRows lines s2 = Ok m2 /\ sameDisplay m2 m1.
Proof.
  intros Hmax Hmin Hdoc Hcosts Hvalid. unfold buildRows. simpl.
  rewrite Hmax, Hmin, Hdoc.
  destruct (includeSignature lines (minIndex s2)) as [lo|]; [|discriminate]. simpl.
  destruct (int_sub lo 1) as [first|]; [|discriminate]. simpl.
  destruct (int_add (maxIndex s2) 1) as [bound|]; [|discriminate]. simpl.
  destruct (mapResult _ _) as [pushed|]; [|discriminate]. simpl.
  intros [= <-]. eexists. split; [reflexivity|].
  unfold sameDisplay. simpl. repeat split; congruence.
Qed.

(** A load into two models with the same caller/callee results rebuilds
    the same costs, valid lines, rows and line offset. *)
Lemma load_depends_on_inputs (fs : FileSystem) (a b a' : SourceCodeModel)
    (d : DisassemblyOutput) (sourceCode : string) (signals : list Signal) :
  sourceFileName d <> EmptyString ->
  fs (sourceFileName d) = Some sourceCode ->
  m_callerCalleeResults b = m_callerCalleeResults a ->
  setDisassembly fs a d = Ok (a', signals) ->
  exists b', setDisassembly fs b d = Ok (b', signals) /\ sameDisplay b' a'.
Proof.
  intros Hname Hfile Hresults Hload.
  destruct (setDisassembly_loaded _ _ _ _ _ _ Hname Hfile Hload) as [Hbuild ->].
  destruct (resetAndScan_spec a sourceCode d)
    as (Hmax & Hmin & Hcosts & Hvalid & Hdoc & _).
  destruct (resetAndScan_spec b sourceCode d)
    as (Hmax' & Hmin' & Hcosts' & Hvalid' & Hdoc' & _).
  destruct (buildRows_agree (split sourceCode) (resetAndScan a sourceCode d)
              (resetAndScan b sourceCode d) a') as (b' & Hb' & Hsame);
    try congruence.
  exists b'. split; [|assumption].
  unfold setDisassembly.
  destruct (isEmpty (sourceFileName d)) eqn:He; [apply isEmpty_true in He; contradiction|].
  rewrite Hfile, Hb'. reflexivity.
Qed.

(** C6. After two successive calls of [setDisassembly], the second of which
    loads a file, the costs, the valid lines, the rows and the line offset
    are those that the second call produces from any model with the same
    caller/callee results: they are determined by the disassembly and the
    file of the second call and by these results, and the costs are those
    of a fresh aggregator to which only the cost records of the second
    disassembly were added. *)
Theorem reload_leaks_nothing (fs : FileSystem) (m m1 m2 other : SourceCodeModel)
    (d1 d2 : DisassemblyOutput) (sourceCode : string) (signals1 signals2 : list Signal) :
  setDisassembly fs m d1 = Ok (m1, signals1) ->
  sourceFileName d2 <> EmptyString ->
  fs (sourceFileName d2) = Some sourceCode ->
  setDisassembly fs m1 d2 = Ok (m2, signals2) ->
  m_callerCalleeResults other = m_callerCalleeResults m ->
  (exists other', setDisassembly fs other d2 = Ok (other', signals2) /\ sameDisplay other' m2) /\
  m_costs m2
  = Costs.addAll (Costs.initialize (Costs.numTypes (selfCosts (m_callerCalleeResults m))))
                 (costRecords (entry (m_callerCalleeResults m) (symbol d2))
                              (disassemblyLines d2)) /\
  m_validLineNumbers m2 = list_to_set (mappedLines (disassemblyLines d2)).
Proof.
  intros Hfirst Hname Hfile Hsecond Hresults.
  destruct (setDisassembly_keeps_results _ _ _ _ _ Hfirst) as (Hkept & _).
  split.
  - apply (load_depends_on_inputs fs m1 other m2 d2 sourceCode signals2);
      try assumption. congruence.
  - destruct (setDisassembly_loaded _ _ _ _ _ _ Hname Hfile Hsecond) as [Hbuild _].
    apply buildRows_Ok in Hbuild as (lo & _ & _ & _ & _ & Hcosts & Hvalid & _).
    destruct (resetAndScan_spec m1 sourceCode d2) as (_ & _ & Hcosts' & Hvalid' & _).
    rewrite Hcosts, Hvalid, Hcosts', Hvalid', Hkept. split; reflexivity.
Qed.

(** ** The theorems on the concrete inputs *)

Section Instances.
Import Examples.

(** C4. On [main.c] the display range is [5, 9], a span of five source
    lines, and [lineForIndex] maps row [r] to line [5 + r]; but the loaded
    model has six rows, the last of which is line 10, past the range. *)
Theorem main_has_a_row_more_than_its_span :
  displayRange model mainC mainDisassembly = Ok (5, 9) /\
  setDisassembly files model mainDisassembly = Ok (mainLoaded, resetSignals) /\
  rowCount mainLoaded invalidIndex = 6 /\
  6 <> 9 - 5 + 1 /\
  lineForIndex mainLoaded (mkIndex 5 SourceCodeColumn) = Ok 10 /\
  listAt (m_sourceCode mainLoaded) 5 = Ok (mkTextLine 9 "}").
Proof.
  split; [vm_compute; reflexivity|]. split; [vm_compute; reflexivity|].
  split; [vm_compute; reflexivity|]. split; [lia|].
  split; vm_compute; reflexivity.
Qed.

(** When the last mapped line is the last line of the file, the row past
    the range is a block that the document does not have, and the loop
    dereferences its null layout. *)
Lemma row_past_the_last_line_has_no_block :
  displayRange model bareC bareDisassembly = Ok (1, 3) /\
  count (blocks bareC) = 3 /\
  setDisassembly files model bareDisassembly = Fault (NullLayout 3).
Proof.
  split; [vm_compute; reflexivity|]. split; vm_compute; reflexivity.
Qed.

Lemma totalCost_is_sum_of_line_costs_witness :
  (forall r, r ∈ records -> fst r ∈ lines) /\
  Costs.totalCost (Costs.addAll (Costs.initialize 2) records) 0
  = Costs.sumOver lines (Costs.cost (Costs.addAll (Costs.initialize 2) records) 0) /\
  (forall line,
     line ∉ lines -> Costs.cost (Costs.addAll (Costs.initialize 2) records) 0 line = 0).
Proof.
  assert (forall r, r ∈ records -> fst r ∈ lines) as Hin.
  { apply Forall_forall. apply (bool_decide_unpack _). vm_compute. reflexivity. }
  split; [exact Hin|].
  apply (totalCost_is_sum_of_line_costs 2 records 0 lines Hin).
Defined.

Lemma scan_of_5_5_7_0_9_witness :
  sourceCodeLine <$> disassemblyLines mainDisassembly = [5; 5; 7; 0; 9] /\
  minIndex (resetAndScan model mainC mainDisassembly) = 5 /\
  maxIndex (resetAndScan model mainC mainDisassembly) = 9 /\
  m_validLineNumbers (scanned (resetAndScan model mainC mainDisassembly)) = {[5; 7; 9]} /\
  mappedLines (disassemblyLines mainDisassembly) = [5; 5; 7; 9].
Proof.
  split; [reflexivity|].
  apply (scan_of_5_5_7_0_9 model mainC mainDisassembly). reflexivity.
Defined.

Lemma rows_span_range_and_next_line_witness :
  sourceFileName mainDisassembly <> EmptyString /\
  files (sourceFileName mainDisassembly) = Some mainC /\
  mappedLines (disassemblyLines mainDisassembly) <> [] /\
  setDisassembly files model mainDisassembly = Ok (mainLoaded, resetSignals) /\
  exists lo hi,
    displayRange model mainC mainDisassembly = Ok (lo, hi) /\
    m_lineOffset mainLoaded = lo /\
    rowCount mainLoaded invalidIndex = hi - lo + 2 /\
    forall index, 0 <= row index < rowCount mainLoaded invalidIndex ->
      lineForIndex mainLoaded index = Ok (lo + row index) /\
      exists text,
        lookupZ (split mainC) (lo + row index - 1) = Some text /\
        listAt (m_sourceCode mainLoaded) (row index)
        = Ok (mkTextLine (lo + row index - 1) text).
Proof.
  assert (sourceFileName mainDisassembly <> EmptyString) as Hname by discriminate.
  assert (files (sourceFileName mainDisassembly) = Some mainC) as Hfile by reflexivity.
  assert (mappedLines (disassemblyLines mainDisassembly) <> []) as Hmapped by discriminate.
  assert (setDisassembly files model mainDisassembly = Ok (mainLoaded, resetSignals))
    as Hload by (vm_compute; reflexivity).
  repeat (split; [assumption|]).
  exact (rows_span_range_and_next_line files model mainLoaded mainDisassembly mainC
           resetSignals Hname Hfile Hmapped Hload).
Defined.

Lemma valid_lines_are_the_mapped_lines_witness :
  sourceFileName mainDisassembly <> EmptyString /\
  files (sourceFileName mainDisassembly) = Some mainC /\
  setDisassembly files model mainDisassembly = Ok (mainLoaded, resetSignals) /\
  (forall l,
     l ∈ m_validLineNumbers mainLoaded
     <-> l <> 0 /\ exists line, line ∈ disassemblyLines mainDisassembly /\ sourceCodeLine line = l) /\
  (forall index role,
     hasIndex mainLoaded (row index) (column index) invalidIndex = Ok true ->
     cellRole role = true ->
     column index = SourceCodeLineNumber ->
     lineForIndex mainLoaded index = Ok (row index + m_lineOffset mainLoaded) /\
     data mainLoaded index role
     = Ok (QInt (if bool_decide (row index + m_lineOffset mainLoaded
                                 ∈ m_validLineNumbers mainLoaded)
                 then row index + m_lineOffset mainLoaded else 0))).
Proof.
  assert (sourceFileName mainDisassembly <> EmptyString) as Hname by discriminate.
  assert (files (sourceFileName mainDisassembly) = Some mainC) as Hfile by reflexivity.
  assert (setDisassembly files model mainDisassembly = Ok (mainLoaded, resetSignals))
    as Hload by (vm_compute; reflexivity).
  repeat (split; [assumption|]).
  exact (valid_lines_are_the_mapped_lines files model mainLoaded mainDisassembly mainC
           resetSignals Hname Hfile Hload).
Defined.

Lemma reload_leaks_nothing_witness :
  setDisassembly files model wideDisassembly = Ok (wideLoaded, resetSignals) /\
  sourceFileName mainDisassembly <> EmptyString /\
  files (sourceFileName mainDisassembly) = Some mainC /\
  setDisassembly files wideLoaded mainDisassembly = Ok (mainReloaded, resetSignals) /\
  m_callerCalleeResults model = m_callerCalleeResults model /\
  (exists other',
     setDisassembly files model mainDisassembly = Ok (other', resetSignals) /\
     sameDisplay other' mainReloaded) /\
  m_costs mainReloaded
  = Costs.addAll (Costs.initialize (Costs.numTypes (selfCosts (m_callerCalleeResults model))))
                 (costRecords (entry (m_callerCalleeResults model) (symbol mainDisassembly))
                              (disassemblyLines mainDisassembly)) /\
  m_validLineNumbers mainReloaded = list_to_set (mappedLines (disassemblyLines mainDisassembly)).
Proof.
  assert (setDisassembly files model wideDisassembly = Ok (wideLoaded, resetSignals))
    as Hfirst by (vm_compute; reflexivity).
  assert (sourceFileName mainDisassembly <> EmptyString) as Hname by discriminate.
  assert (files (sourceFileName mainDisassembly) = Some mainC) as Hfile by reflexivity.
  assert (setDisassembly files wideLoaded mainDisassembly = Ok (mainReloaded, resetSignals))
    as Hsecond by (vm_compute; reflexivity).
  repeat (split; [assumption|]). split; [reflexivity|].
  exact (reload_leaks_nothing files model wideLoaded mainReloaded model wideDisassembly
           mainDisassembly mainC resetSignals resetSignals
           Hfirst Hname Hfile Hsecond eq_refl).
Defined.

Lemma unopened_file_leaves_the_model_witness :
  (sourceFileName missingDisassembly = EmptyString
   \/ files (sourceFileName missingDisassembly) = None) /\
  setDisassembly files mainLoaded missingDisassembly = Ok (mainLoaded, []).
Proof.
  assert (sourceFileName missingDisassembly = EmptyString
          \/ files (sourceFileName missingDisassembly) = None) as Hmissing
    by (right; reflexivity).
  split; [exact Hmissing|].
  exact (unopened_file_leaves_the_model files mainLoaded missingDisassembly Hmissing).
Defined.

Lemma out_of_range_queries_are_empty_witness :
  columnCount mainLoaded invalidIndex = Ok 5 /\
  (forall index role,
     row index < 0 \/ row index >= rowCount mainLoaded invalidIndex \/
     column index < 0 \/ column index >= 5 ->
     data mainLoaded index role = Ok QInvalid) /\
  (forall section orientation role,
     section < 0 \/ section >= COLUMN_COUNT + m_numTypes mainLoaded ->
     headerData mainLoaded section orientation role = Ok QInvalid).
Proof.
  assert (columnCount mainLoaded invalidIndex = Ok 5) as Hcolumns by (vm_compute; reflexivity).
  split; [exact Hcolumns|].
  exact (out_of_range_queries_are_empty mainLoaded 5 Hcolumns).
Defined.

Lemma updateHighlighting_sets_the_highlight_only_witness :
  is_int 7 /\
  m_highlightLine (fst (updateHighlighting mainLoaded 7)) = 7 /\
  data (fst (updateHighlighting mainLoaded 7)) (mkIndex 2 Highlight) DisplayRole
  = Ok (QBool true) /\
  data (fst (updateHighlighting mainLoaded 7)) (mkIndex 3 Highlight) DisplayRole
  = Ok (QBool false).
Proof.
  assert (is_int 7) as Hint by (unfold is_int, INT_MIN, INT_MAX; lia).
  split; [exact Hint|].
  pose proof (updateHighlighting_sets_the_highlight_only mainLoaded 7 Hint) as Hspec.
  cbv zeta in Hspec.
  destruct Hspec as (Hline & _ & _ & _ & _ & _ & _ & _ & _ & Hcell).
  assert (forall r, r = 2 \/ r = 3 ->
            hasIndex (fst (updateHighlighting mainLoaded 7)) (row (mkIndex r Highlight))
              (column (mkIndex r Highlight)) invalidIndex = Ok true) as Hhas
    by (intros r [->| ->]; vm_compute; reflexivity).
  split; [exact Hline|]. split.
  - destruct (Hcell (mkIndex 2 Highlight) DisplayRole (Hhas 2 (or_introl eq_refl))
                eq_refl eq_refl) as [Hiff _].
    apply Hiff. vm_compute. reflexivity.
  - destruct (Hcell (mkIndex 3 Highlight) DisplayRole (Hhas 3 (or_intror eq_refl))
                eq_refl eq_refl) as [_ Hfalse].
    apply Hfalse. vm_compute. split; discriminate.
Defined.

End Instances.

(** * Further properties *)

(** ** What the queries return *)

Lemma to_int_Fault (z : Z) (f : fault) : to_int z = Fault f -> f = Overflow.
Proof. unfold to_int. destruct (_ && _); [discriminate | now intros [= <-]]. Qed.

Lemma Role_eqb_eq (a b : Role) : Role_eqb a b = true <-> a = b.
Proof.
  destruct a, b; simpl; split; try discriminate; try reflexivity.
  - intros H. apply Z.eqb_eq in H. now subst.
  - intros [= ->]. apply Z.eqb_refl.
Qed.

Section MoreQueryFacts.
Context {decls : Declarations}.

Lemma hasIndex_Fault (m : SourceCodeModel) (r c : Z) (p : QModelIndex) (f : fault) :
  hasIndex m r c p = Fault f -> f = Overflow.
Proof.
  unfold hasIndex, columnCount.
  destruct (_ || _); [discriminate|].
  destruct (r <? rowCount m p); [|discriminate].
  destruct (isValid p); [discriminate|].
  destruct (int_add _ _) as [columns|g] eqn:Hadd; [discriminate|].
  simpl. intros [= <-]. now apply to_int_Fault in Hadd.
Qed.

Lemma data_Fault (m : SourceCodeModel) (index : QModelIndex) (role : Role) (f : fault) :
  data m index role = Fault f -> f = Overflow.
Proof.
  unfold data, parent.
  destruct (hasIndex m (row index) (column index) invalidIndex) as [[|]|g] eqn:Hhas.
  - destruct (hasIndex_true _ _ _ Hhas) as (Hrow & _).
    destruct (lookupZ_in_range (m_sourceCode m) (row index) Hrow) as [line Hline].
    simpl. destruct (_ || _); [discriminate|].
    rewrite (listAt_lookupZ _ _ _ Hline). simpl.
    destruct (cellRole role); [|discriminate].
    destruct (column index =? SourceCodeColumn); [discriminate|].
    destruct (column index =? SourceCodeLineNumber).
    { destruct (int_add _ _) as [n|g] eqn:Hadd; simpl.
      - destruct (bool_decide _); discriminate.
      - intros [= <-]. now apply to_int_Fault in Hadd. }
    destruct (column index =? Highlight).
    { destruct (int_add _ _) as [n|g] eqn:Hadd; simpl; [discriminate|].
      intros [= <-]. now apply to_int_Fault in Hadd. }
    destruct (int_sub _ _) as [type|g] eqn:Hsub; simpl;
      [|intros [= <-]; now apply to_int_Fault in Hsub].
    destruct (type <? m_numTypes m); [|discriminate].
    destruct (int_add _ _) as [n|g] eqn:Hadd; simpl.
    + destruct (Role_eqb role CostRole); [discriminate|].
      destruct (Role_eqb role TotalCostRole); discriminate.
    + intros [= <-]. now apply to_int_Fault in Hadd.
  - simpl. discriminate.
  - simpl. intros [= <-]. now apply hasIndex_Fault in Hhas.
Qed.

(** X1. Whatever the state of the model, the index and the role, [data]
    returns a value or overflows one of its sums of [int]s: it never
    indexes [m_sourceCode] out of range.  The guard of [hasIndex] bounds
    the row before [m_sourceCode.at] reads it, although the guard of [data]
    itself, [row > count], lets the row [count] through. *)
Theorem data_reads_rows_in_range (m : SourceCodeModel) (index : QModelIndex) (role : Role) :
  (exists value, data m index role = Ok value) \/ data m index role = Fault Overflow.
Proof.
  destruct (data m index role) as [value|f] eqn:Hdata; [left; eauto|].
  right. now rewrite (data_Fault _ _ _ _ Hdata).
Qed.

Lemma data_of_other_roles_is_empty_aux (m : SourceCodeModel) (index : QModelIndex)
    (role : Role) :
  is_int (COLUMN_COUNT + m_numTypes m) ->
  cellRole role = false ->
  data m index role = Ok QInvalid.
Proof.
  intros Hint Hrole. unfold data, parent.
  destruct (hasIndex m (row index) (column index) invalidIndex) as [[|]|g] eqn:Hhas.
  - destruct (hasIndex_true _ _ _ Hhas) as (Hrow & _).
    destruct (lookupZ_in_range (m_sourceCode m) (row index) Hrow) as [line Hline].
    simpl. destruct (_ || _); [reflexivity|].
    rewrite (listAt_lookupZ _ _ _ Hline). simpl. now rewrite Hrole.
  - reflexivity.
  - exfalso. revert Hhas. unfold hasIndex, columnCount, int_add. simpl.
    rewrite to_int_in_range by assumption.
    destruct (_ || _); [discriminate|].
    destruct (row index <? rowCount m invalidIndex); discriminate.
Qed.

(** X2. For a role that no cell answers, [data] returns the empty value on
    every index, whenever the number of columns is an [int]. *)
Theorem data_of_other_roles_is_empty (m : SourceCodeModel) (index : QModelIndex)
    (role : Role) :
  is_int (COLUMN_COUNT + m_numTypes m) ->
  cellRole role = false ->
  data m index role = Ok QInvalid.
Proof. apply data_of_other_roles_is_empty_aux. Qed.

(** X3. For the display role and the horizontal orientation, [headerData]
    names every section of the model: the three named columns by their
    fixed texts and every other section by the name of its cost type.  Its
    last guard, [section - COLUMN_COUNT <= m_numTypes], never fails on a
    section of the model, so no section is left without a name; for any
    other role or orientation the header is empty. *)
Theorem headerData_names_every_section (m : SourceCodeModel) (section : Z) :
  is_int COLUMN_COUNT ->
  is_int (m_numTypes m) ->
  is_int (COLUMN_COUNT + m_numTypes m) ->
  0 <= section < COLUMN_COUNT + m_numTypes m ->
  headerData m section Horizontal DisplayRole
  = Ok (QText (if section =? SourceCodeColumn then "Source Code"
               else if section =? SourceCodeLineNumber then "Source Code Line Number"
               else if section =? Highlight then "Highlight"
               else typeName (selfCosts (m_callerCalleeResults m))
                             (section - COLUMN_COUNT))) /\
  (forall orientation role,
     role <> DisplayRole \/ orientation = Vertical ->
     headerData m section orientation role = Ok QInvalid).
Proof.
  intros Hcc Hnt Hsum Hsection.
  assert (forall orientation role,
            headerData m section orientation role =
            if negb (Role_eqb role DisplayRole)
               || negb (match orientation with Horizontal => true | Vertical => false end)
            then Ok QInvalid
            else if section =? SourceCodeColumn then Ok (QText "Source Code")
            else if section =? SourceCodeLineNumber
                 then Ok (QText "Source Code Line Number")
            else if section =? Highlight then Ok (QText "Highlight")
            else Ok (QText (typeName (selfCosts (m_callerCalleeResults m))
                                     (section - COLUMN_COUNT)))) as Hheader.
  { intros orientation role. unfold headerData, int_add, int_sub.
    destruct (Z.ltb_spec section 0); [lia|].
    rewrite (to_int_in_range (COLUMN_COUNT + m_numTypes m)) by assumption. simpl.
    destruct (Z.geb_spec section (COLUMN_COUNT + m_numTypes m)); [lia|].
    destruct (_ || _); [reflexivity|].
    destruct (section =? SourceCodeColumn); [reflexivity|].
    destruct (section =? SourceCodeLineNumber); [reflexivity|].
    destruct (section =? Highlight); [reflexivity|].
    rewrite (to_int_in_range (section - COLUMN_COUNT))
      by (unfold is_int, INT_MIN, INT_MAX in *; lia).
    simpl. destruct (Z.leb_spec (section - COLUMN_COUNT) (m_numTypes m)); [reflexivity | lia]. }
  split.
  - rewrite Hheader. simpl.
    destruct (section =? SourceCodeColumn); [reflexivity|].
    destruct (section =? SourceCodeLineNumber); [reflexivity|].
    destruct (section =? Highlight); reflexivity.
  - intros orientation role Hother. rewrite Hheader.
    destruct Hother as [Hrole| ->].
    + destruct (Role_eqb role DisplayRole) eqn:Heq; [|reflexivity].
      apply Role_eqb_eq in Heq. contradiction.
    + now rewrite orb_true_r.
Qed.

(** X4. After [clear] the model has no rows and [data] returns the empty
    value on every index and for every role; [clear] empties the rows
    only, the costs, the valid lines, the line offset and the highlight
    line are the ones before it. *)
Theorem clear_empties_every_cell (m : SourceCodeModel) :
  let m' := fst (clear m) in
  rowCount m' invalidIndex = 0 /\
  (forall index role, data m' index role = Ok QInvalid) /\
  m_costs m' = m_costs m /\
  m_validLineNumbers m' = m_validLineNumbers m /\
  m_lineOffset m' = m_lineOffset m /\
  m_highlightLine m' = m_highlightLine m.
Proof.
  cbv zeta. split; [reflexivity|]. split; [|simpl; tauto].
  intros index role.
  assert (hasIndex (fst (clear m)) (row index) (column index) invalidIndex = Ok false)
    as Hhas.
  { unfold hasIndex, rowCount, count. simpl.
    destruct (Z.ltb_spec (row index) 0) as [Hneg|Hpos]; [reflexivity|].
    destruct (column index <? 0); [reflexivity|]. simpl.
    change (Z.of_nat 0) with 0.
    destruct (Z.ltb_spec (row index) 0); [lia | reflexivity]. }
  unfold data, parent. now rewrite Hhas.
Qed.

End MoreQueryFacts.

(** ** The rows of the model and its document *)

Lemma buildRows_rows (lines : list string) (s : Scan) (m' : SourceCodeModel) :
  buildRows lines s = Ok m' ->
  rowsOfDocument m' /\
  m_document m' = m_document (scanned s) /\
  count (m_sourceCode m') = Z.max 0 (maxIndex s + 2 - m_lineOffset m').
Proof.
  intros Hbuild.
  apply buildRows_Ok in Hbuild as (lo & _ & _ & Hrows & Hoff & _ & _ & Hdoc & _).
  apply pushed_rows in Hrows as [Hcount Hrows].
  split; [|split; [assumption | rewrite Hoff, Hcount; f_equal; lia]].
  intros r Hr. rewrite Hoff, Hdoc. now apply Hrows.
Qed.

(** A call of [setDisassembly] that returns has either returned early,
    with the model it was given and no signal, or opened a file and built
    the rows. *)
Lemma setDisassembly_Ok (fs : FileSystem) (m m' : SourceCodeModel)
    (d : DisassemblyOutput) (signals : list Signal) :
  setDisassembly fs m d = Ok (m', signals) ->
  (m' = m /\ signals = []) \/
  (exists sourceCode,
     sourceFileName d <> EmptyString /\
     fs (sourceFileName d) = Some sourceCode /\
     buildRows (split sourceCode) (resetAndScan m sourceCode d) = Ok m').
Proof.
  unfold setDisassembly.
  destruct (isEmpty (sourceFileName d)) eqn:He; [intros [= <- <-]; now left|].
  destruct (fs (sourceFileName d)) as [sourceCode|] eqn:Hfile; [|intros [= <- <-]; now left].
  intros H. apply bind_Ok in H as (m1 & Hbuild & H). injection H as <- _.
  right. exists sourceCode. repeat split; try assumption.
  intros Hname. rewrite Hname in He. discriminate.
Qed.

Section RunFacts.
Context {decls : Declarations}.

Lemma step_keeps_rowsOfDocument (m m' : SourceCodeModel) :
  step m m' -> rowsOfDocument m -> rowsOfDocument m'.
Proof.
  intros Hstep Hrows. destruct Hstep as [fs m m' d signals Hload|m line|m|m results].
  - apply setDisassembly_Ok in Hload as [[-> _]|(sourceCode & _ & _ & Hbuild)];
      [assumption|].
    now apply buildRows_rows in Hbuild as [Hnew _].
  - exact Hrows.
  - intros r Hr. unfold count in Hr. simpl in Hr. lia.
  - exact Hrows.
Qed.

(** X5. Every run of calls of [setDisassembly], [updateHighlighting],
    [clear] and [setCallerCalleeResults] from a model without rows keeps
    the rows in step with the document and the line offset: row [r] is the
    first line of block [m_lineOffset - 1 + r] of the document, so that
    the source cell of a row shows line [lineForIndex] of the document. *)
Theorem reachable_rows_are_document_lines (m : SourceCodeModel) :
  reachable m ->
  rowsOfDocument m /\
  (forall index role,
     hasIndex m (row index) (column index) invalidIndex = Ok true ->
     cellRole role = true ->
     column index = SourceCodeColumn ->
     exists text,
       lookupZ (blocks (m_document m)) (m_lineOffset m - 1 + row index) = Some text /\
       data m index role
       = Ok (QLine (mkTextLine (m_lineOffset m - 1 + row index) text))).
Proof.
  intros Hreach.
  assert (rowsOfDocument m) as Hrows.
  { induction Hreach as [m Hempty|m m' _ IH Hstep].
    - intros r Hr. unfold count in Hr. rewrite Hempty in Hr. simpl in Hr. lia.
    - now apply (step_keeps_rowsOfDocument m m'). }
  split; [assumption|].
  intros index role Hhas Hrole Hcolumn.
  destruct (hasIndex_true _ _ _ Hhas) as (Hrow & _).
  destruct (Hrows (row index) Hrow) as (text & Hblock & Hline).
  exists text. split; [assumption|].
  destruct (data_of_cell m index role Hhas Hrole) as (line & Hat & ->).
  rewrite (listAt_lookupZ _ _ _ Hline) in Hat. injection Hat as <-.
  rewrite Hcolumn, Z.eqb_refl. reflexivity.
Qed.

(** X6. On a model that a load has built, [data] returns a value for every
    index and every role: with [COLUMN_COUNT], the number of cost types and
    their sum in the range of [int], no sum of [data] overflows and no row
    is read out of range. *)
Theorem data_of_loaded_model_returns (fs : FileSystem) (m m' : SourceCodeModel)
    (d : DisassemblyOutput) (sourceCode : string) (signals : list Signal)
    (index : QModelIndex) (role : Role) :
  sourceFileName d <> EmptyString ->
  fs (sourceFileName d) = Some sourceCode ->
  setDisassembly fs m d = Ok (m', signals) ->
  is_int COLUMN_COUNT ->
  is_int (m_numTypes m') ->
  is_int (COLUMN_COUNT + m_numTypes m') ->
  exists value, data m' index role = Ok value.
Proof.
  intros Hname Hfile Hload Hcc Hnt Hsum.
  destruct (setDisassembly_loaded _ _ _ _ _ _ Hname Hfile Hload) as [Hbuild _].
  destruct (hasIndex m' (row index) (column index) invalidIndex) as [[|]|g] eqn:Hhas.
  - destruct (hasIndex_true _ _ _ Hhas) as (Hrow & columns & Hcolumns & Hcol).
    unfold columnCount in Hcolumns. simpl in Hcolumns.
    apply int_add_Ok in Hcolumns as [-> _].
    destruct (loaded_rows_are_ints _ _ _ _ Hbuild Hrow) as [Hint _].
    destruct (cellRole role) eqn:Hrole.
    + destruct (data_of_cell m' index role Hhas Hrole) as (line & _ & ->).
      unfold int_add, int_sub.
      rewrite (to_int_in_range (row index + m_lineOffset m')) by assumption.
      rewrite (to_int_in_range (column index - COLUMN_COUNT))
        by (unfold is_int, INT_MIN, INT_MAX in *; lia).
      simpl.
      destruct (column index =? SourceCodeColumn); [eauto|].
      destruct (column index =? SourceCodeLineNumber);
        [destruct (bool_decide _); eauto|].
      destruct (column index =? Highlight); [eauto|].
      destruct (_ <? _); [|eauto].
      destruct (Role_eqb role CostRole); [eauto|].
      destruct (Role_eqb role TotalCostRole); eauto.
    + exists QInvalid. now apply data_of_other_roles_is_empty_aux.
  - exists QInvalid. unfold data, parent. now rewrite Hhas.
  - exfalso. revert Hhas. unfold hasIndex, columnCount, int_add. simpl.
    rewrite to_int_in_range by assumption.
    destruct (_ || _); [discriminate|].
    destruct (row index <? rowCount m' invalidIndex); discriminate.
Qed.

End RunFacts.

(** ** The range of the scan *)

Lemma foldl_min_attained (ls : list Z) :
  forall a, foldl Z.min a ls = a \/ foldl Z.min a ls ∈ ls.
Proof.
  induction ls as [|x ls IH]; intros a; simpl; [now left|].
  destruct (IH (Z.min a x)) as [Heq|Hin].
  - rewrite Heq. destruct (Z.min_spec a x) as [[_ ->]|[_ ->]]; [now left | right; left].
  - right. now right.
Qed.

Lemma foldl_max_attained (ls : list Z) :
  forall a, foldl Z.max a ls = a \/ foldl Z.max a ls ∈ ls.
Proof.
  induction ls as [|x ls IH]; intros a; simpl; [now left|].
  destruct (IH (Z.max a x)) as [Heq|Hin].
  - rewrite Heq. destruct (Z.max_spec a x) as [[_ ->]|[_ ->]]; [right; left | now left].
  - right. now right.
Qed.

Lemma scan_range (m : SourceCodeModel) (sourceCode : string) (d : DisassemblyOutput) :
  mappedLines (disassemblyLines d) <> [] ->
  (forall l, l ∈ mappedLines (disassemblyLines d) -> 0 < l <= INT_MAX) ->
  let s := resetAndScan m sourceCode d in
  minIndex s ∈ mappedLines (disassemblyLines d) /\
  maxIndex s ∈ mappedLines (disassemblyLines d) /\
  (forall l, l ∈ mappedLines (disassemblyLines d) -> minIndex s <= l <= maxIndex s).
Proof.
  intros Hmapped Hpos. cbv zeta.
  destruct (resetAndScan_spec m sourceCode d) as (-> & -> & _).
  destruct (mappedLines (disassemblyLines d)) as [|x rest] eqn:Hlines; [congruence|].
  assert (x ∈ x :: rest) as Hx by left.
  pose proof (foldl_min_elem (x :: rest) INT_MAX x Hx) as Hmin_x.
  pose proof (foldl_max_elem (x :: rest) 0 x Hx) as Hmax_x.
  pose proof (Hpos x Hx) as Hx_pos.
  split; [|split].
  - destruct (foldl_min_attained (x :: rest) INT_MAX) as [Heq|Hin]; [|assumption].
    rewrite Heq in *. replace INT_MAX with x by lia. left.
  - destruct (foldl_max_attained (x :: rest) 0) as [Heq|Hin]; [|assumption].
    rewrite Heq in Hmax_x. lia.
  - intros l Hl. split; [now apply foldl_min_elem | now apply foldl_max_elem].
Qed.

(** X7. When the disassembly has a mapped line and its mapped lines are
    positive [int]s, the scan leaves in [minIndex] and [maxIndex] the least
    and the greatest of them: both are source lines some instruction maps
    to, and every mapped line lies between them. *)
Theorem scan_finds_least_and_greatest_line (m : SourceCodeModel) (sourceCode : string)
    (d : DisassemblyOutput) :
  mappedLines (disassemblyLines d) <> [] ->
  (forall l, l ∈ mappedLines (disassemblyLines d) -> 0 < l <= INT_MAX) ->
  let s := resetAndScan m sourceCode d in
  (exists line, line ∈ disassemblyLines d /\ sourceCodeLine line = minIndex s) /\
  (exists line, line ∈ disassemblyLines d /\ sourceCodeLine line = maxIndex s) /\
  (forall line, line ∈ disassemblyLines d -> sourceCodeLine line <> 0 ->
     minIndex s <= sourceCodeLine line <= maxIndex s).
Proof.
  intros Hmapped Hpos. cbv zeta.
  destruct (scan_range m sourceCode d Hmapped Hpos) as (Hmin & Hmax & Hall).
  apply elem_of_mappedLines in Hmin as (_ & Hmin).
  apply elem_of_mappedLines in Hmax as (_ & Hmax).
  repeat split; try assumption.
  - apply Hall, elem_of_mappedLines. eauto.
  - apply Hall, elem_of_mappedLines. eauto.
Qed.

(** ** When a load returns *)

Lemma mapResult_firstLine_Ok (document : string) (first len : Z) :
  0 <= first -> first + len <= count (blocks document) ->
  exists rows, mapResult (firstLineOfBlock document) (seqZ first len) = Ok rows.
Proof.
  intros Hfirst Hlast.
  assert (forall l : list Z,
            (forall i, i ∈ l -> 0 <= i < count (blocks document)) ->
            exists rows, mapResult (firstLineOfBlock document) l = Ok rows) as Hall.
  { induction l as [|i l IH]; intros Hin; simpl; [eauto|].
    unfold firstLineOfBlock at 1.
    assert (0 <= i < count (blocks document)) as Hi by (apply Hin; left).
    destruct (Z.ltb_spec i 0); [lia|].
    destruct (lookupZ_in_range (blocks document) i Hi) as [text ->]. simpl.
    destruct IH as [rows ->]; [intros j Hj; apply Hin; now right|].
    simpl. eauto. }
  apply Hall. intros i Hi. apply elem_of_seqZ in Hi. lia.
Qed.

(** X8. A load returns, with the two signals of a model reset, when the
    disassembly has a mapped line, every mapped line is a line of the file
    other than its last, and some line before all of them (index [j],
    line [j + 1]) holds an opening parenthesis.  The line offset is then
    after line [j] and at most the first mapped line. *)
Theorem load_with_signature_returns (fs : FileSystem) (m : SourceCodeModel)
    (d : DisassemblyOutput) (sourceCode : string) (j : Z) :
  sourceFileName d <> EmptyString ->
  fs (sourceFileName d) = Some sourceCode ->
  mappedLines (disassemblyLines d) <> [] ->
  (forall l, l ∈ mappedLines (disassemblyLines d) -> j < l < count (split sourceCode)) ->
  count (split sourceCode) <= INT_MAX ->
  hasParen (split sourceCode) j ->
  exists m',
    setDisassembly fs m d = Ok (m', [ModelAboutToBeReset; ModelReset]) /\
    j + 1 <= m_lineOffset m' /\
    (forall l, l ∈ mappedLines (disassemblyLines d) -> m_lineOffset m' <= l).
Proof.
  intros Hname Hfile Hmapped Hlines Hsize Hparen.
  pose proof Hparen as (text & Htext & _). apply lookupZ_Some in Htext.
  assert (forall l, l ∈ mappedLines (disassemblyLines d) -> 0 < l <= INT_MAX) as Hpos
    by (intros l Hl; specialize (Hlines l Hl); lia).
  destruct (scan_range m sourceCode d Hmapped Hpos) as (Hmin & Hmax & Hall).
  pose proof (Hlines _ Hmin) as Hmin_range.
  pose proof (Hlines _ Hmax) as Hmax_range.
  set (s := resetAndScan m sourceCode d) in *.
  destruct (includeSignature_spec (split sourceCode) (minIndex s))
    as (lo & Hlo & Hlo_range & Hlack & _); [lia | lia |].
  assert (j + 1 <= lo) as Hj.
  { destruct (Z.le_gt_cases (j + 1) lo) as [Hle|Hgt]; [assumption|].
    exfalso. apply (paren_exclusive (split sourceCode) j); [assumption|].
    apply Hlack. lia. }
  destruct (resetAndScan_spec m sourceCode d) as (_ & _ & _ & _ & Hdoc & _).
  fold s in Hdoc.
  destruct (mapResult_firstLine_Ok (m_document (scanned s)) (lo - 1)
              (maxIndex s + 1 - (lo - 1))) as [rows Hrows].
  { lia. }
  { rewrite Hdoc. unfold blocks. lia. }
  eexists. split.
  - unfold setDisassembly.
    destruct (isEmpty (sourceFileName d)) eqn:He; [apply isEmpty_true in He; contradiction|].
    rewrite Hfile. fold s. unfold buildRows. rewrite Hlo. simpl.
    unfold int_sub, int_add.
    rewrite (to_int_in_range (lo - 1)) by (unfold is_int, INT_MIN, INT_MAX in *; lia).
    rewrite (to_int_in_range (maxIndex s + 1))
      by (unfold is_int, INT_MIN, INT_MAX in *; lia).
    simpl. rewrite Hrows. simpl. reflexivity.
  - simpl. split; [assumption|]. intros l Hl. specialize (Hall l Hl). lia.
Qed.

(** X9. When no line of the file up to the first mapped line holds an
    opening parenthesis, the signature walk takes [minIndex] down to 0 and
    the row loop starts at block -1, which the document does not have:
    the call dereferences the null layout of that block. *)
Theorem load_without_parenthesis_faults (fs : FileSystem) (m : SourceCodeModel)
    (d : DisassemblyOutput) (sourceCode : string) :
  sourceFileName d <> EmptyString ->
  fs (sourceFileName d) = Some sourceCode ->
  mappedLines (disassemblyLines d) <> [] ->
  (forall l, l ∈ mappedLines (disassemblyLines d) -> 0 < l < INT_MAX) ->
  minIndex (resetAndScan m sourceCode d) <= count (split sourceCode) ->
  (forall i, 0 <= i < minIndex (resetAndScan m sourceCode d) ->
     lacksParen (split sourceCode) i) ->
  setDisassembly fs m d = Fault (NullLayout (-1)).
Proof.
  intros Hname Hfile Hmapped Hlines Hsize Hlack.
  assert (forall l, l ∈ mappedLines (disassemblyLines d) -> 0 < l <= INT_MAX) as Hpos
    by (intros l Hl; specialize (Hlines l Hl); lia).
  destruct (scan_range m sourceCode d Hmapped Hpos) as (Hmin & Hmax & _).
  pose proof (Hlines _ Hmin) as Hmin_range.
  pose proof (Hlines _ Hmax) as Hmax_range.
  set (s := resetAndScan m sourceCode d) in *.
  assert (includeSignature (split sourceCode) (minIndex s) = Ok 0) as Hlo.
  { apply includeSignature_no_parenthesis; [lia | lia |].
    intros i Hi. apply Hlack. lia. }
  unfold setDisassembly.
  destruct (isEmpty (sourceFileName d)) eqn:He; [apply isEmpty_true in He; contradiction|].
  rewrite Hfile. fold s. unfold buildRows. rewrite Hlo. simpl.
  unfold int_add.
  rewrite (to_int_in_range (maxIndex s + 1)) by (unfold is_int, INT_MIN, INT_MAX in *; lia).
  simpl. rewrite seqZ_cons by lia. reflexivity.
Qed.

(** ** Valid lines, rows and reloads *)

(** X10. After a load every valid line is on display: the row
    [l - m_lineOffset] of a valid line [l] is a row of the model, it holds
    the text of line [l] of the file, and [lineForIndex] maps it back to
    [l]. *)
Theorem valid_line_has_a_row (fs : FileSystem) (m m' : SourceCodeModel)
    (d : DisassemblyOutput) (sourceCode : string) (signals : list Signal) (l column : Z) :
  sourceFileName d <> EmptyString ->
  fs (sourceFileName d) = Some sourceCode ->
  setDisassembly fs m d = Ok (m', signals) ->
  l ∈ m_validLineNumbers m' ->
  0 <= l - m_lineOffset m' < rowCount m' invalidIndex /\
  lineForIndex m' (mkIndex (l - m_lineOffset m') column) = Ok l /\
  exists text,
    lookupZ (split sourceCode) (l - 1) = Some text /\
    listAt (m_sourceCode m') (l - m_lineOffset m') = Ok (mkTextLine (l - 1) text).
Proof.
  intros Hname Hfile Hload Hvalid.
  destruct (setDisassembly_loaded _ _ _ _ _ _ Hname Hfile Hload) as [Hbuild _].
  pose proof Hbuild as Hbuild'.
  apply buildRows_Ok in Hbuild as (lo & Hlo & Hint & Hrows & Hoff & _ & Hvalid' & _).
  destruct (resetAndScan_spec m sourceCode d) as (Hmax & Hmin & _ & Hset & Hdoc & _).
  rewrite Hvalid', Hset, elem_of_list_to_set in Hvalid.
  pose proof (foldl_min_elem _ INT_MAX l Hvalid) as Hge. rewrite <- Hmin in Hge.
  pose proof (foldl_max_elem _ 0 l Hvalid) as Hle. rewrite <- Hmax in Hle.
  apply includeSignature_Ok in Hlo as (_ & Hlo & _).
  rewrite Hdoc in Hrows. apply pushed_rows in Hrows as [Hcount Hrows].
  rewrite Hoff. unfold rowCount. simpl.
  assert (0 <= l - lo < count (m_sourceCode m')) as Hrow by lia.
  split; [assumption|].
  destruct (loaded_rows_are_ints _ _ _ (l - lo) Hbuild' Hrow) as [Hsum _].
  rewrite Hoff in Hsum. replace (l - lo + lo) with l in Hsum by lia.
  split.
  - unfold lineForIndex, int_add. simpl. rewrite Hoff.
    replace (l - lo + lo) with l by lia. now apply to_int_in_range.
  - destruct (Hrows (l - lo) Hrow) as (text & Htext & Hline).
    replace (lo - 1 + (l - lo)) with (l - 1) in * by lia.
    exists text. split; [assumption | now apply listAt_lookupZ].
Qed.

(** X11. A load is idempotent: a second call of [setDisassembly] with the
    same disassembly and the same file returns the model that the first
    call built, in every component. *)
Theorem reload_of_same_disassembly_is_identity (fs : FileSystem) (m m1 : SourceCodeModel)
    (d : DisassemblyOutput) (sourceCode : string) (signals : list Signal) :
  sourceFileName d <> EmptyString ->
  fs (sourceFileName d) = Some sourceCode ->
  setDisassembly fs m d = Ok (m1, signals) ->
  setDisassembly fs m1 d = Ok (m1, signals).
Proof.
  intros Hname Hfile Hload.
  destruct (setDisassembly_keeps_results _ _ _ _ _ Hload) as (Hres & Hnum & Hhl).
  destruct (load_depends_on_inputs fs m m1 m1 d sourceCode signals Hname Hfile Hres Hload)
    as (m2 & Hreload & Hc & Hv & Hs & Ho).
  rewrite Hreload. do 2 f_equal.
  destruct (setDisassembly_keeps_results _ _ _ _ _ Hreload) as (Hres2 & Hnum2 & Hhl2).
  destruct (setDisassembly_loaded _ _ _ _ _ _ Hname Hfile Hreload) as [Hbuild2 _].
  destruct (setDisassembly_loaded _ _ _ _ _ _ Hname Hfile Hload) as [Hbuild1 _].
  apply buildRows_Ok in Hbuild2 as (_ & _ & _ & _ & _ & _ & _ & Hdoc2 & _).
  apply buildRows_Ok in Hbuild1 as (_ & _ & _ & _ & _ & _ & _ & Hdoc1 & _).
  destruct (resetAndScan_spec m sourceCode d) as (_ & _ & _ & _ & Hd1 & _).
  destruct (resetAndScan_spec m1 sourceCode d) as (_ & _ & _ & _ & Hd2 & _).
  rewrite Hd1 in Hdoc1. rewrite Hd2 in Hdoc2.
  destruct m1, m2. simpl in *. congruence.
Qed.

(** ** The costs of a loaded model *)

Lemma cost_addAll (records : list (Z * Costs.ItemCost)) :
  forall (c : Costs.t) (type line : Z),
    Costs.cost (Costs.addAll c records) type line
    = Costs.cost c type line + recordsCost records type line.
Proof.
  induction records as [|[l record] rest IH]; intros c type line; simpl; [lia|].
  unfold Costs.addAll in *. simpl. rewrite IH, cost_add.
  destruct (decide (line = l)) as [->|Hne].
  - destruct (decide (l = l)); [lia | congruence].
  - destruct (decide (l = line)); [congruence | lia].
Qed.

Lemma recordsCost_unmapped (e : CallerCalleeEntry) (lines : list DisassemblyLine)
    (type line : Z) :
  line ∉ mappedLines lines -> recordsCost (costRecords e lines) type line = 0.
Proof.
  intros Hline.
  assert (forall records : list (Z * Costs.ItemCost),
            (forall r, r ∈ records -> fst r <> line) ->
            recordsCost records type line = 0) as Hzero.
  { induction records as [|r rest IH]; intros Hne; simpl; [reflexivity|].
    destruct (decide (fst r = line)) as [Heq|_]; [exfalso; apply (Hne r); [left | assumption]|].
    rewrite IH; [reflexivity|]. intros x Hx. apply Hne. now right. }
  apply Hzero. intros r Hr Heq. apply Hline. rewrite <- Heq.
  eapply costRecords_mapped, Hr.
Qed.

Lemma loaded_cost (fs : FileSystem) (m m' : SourceCodeModel)
    (d : DisassemblyOutput) (sourceCode : string) (signals : list Signal) (type line : Z) :
  sourceFileName d <> EmptyString ->
  fs (sourceFileName d) = Some sourceCode ->
  setDisassembly fs m d = Ok (m', signals) ->
  Costs.cost (m_costs m') type line
  = recordsCost (costRecords (entry (m_callerCalleeResults m) (symbol d))
                             (disassemblyLines d)) type line.
Proof.
  intros Hname Hfile Hload.
  destruct (setDisassembly_loaded _ _ _ _ _ _ Hname Hfile Hload) as [Hbuild _].
  apply buildRows_Ok in Hbuild as (lo & _ & _ & _ & _ & Hcosts & _).
  destruct (resetAndScan_spec m sourceCode d) as (_ & _ & Hcosts' & _).
  rewrite Hcosts, Hcosts', cost_addAll.
  unfold Costs.initializeCostsFrom. rewrite cost_initialize. lia.
Qed.

Lemma loaded_cost_zero (fs : FileSystem) (m m' : SourceCodeModel)
    (d : DisassemblyOutput) (sourceCode : string) (signals : list Signal) (type line : Z) :
  sourceFileName d <> EmptyString ->
  fs (sourceFileName d) = Some sourceCode ->
  setDisassembly fs m d = Ok (m', signals) ->
  line ∉ m_validLineNumbers m' ->
  Costs.cost (m_costs m') type line = 0.
Proof.
  intros Hname Hfile Hload Hline.
  rewrite (loaded_cost fs m m' d sourceCode signals type line Hname Hfile Hload).
  apply recordsCost_unmapped.
  destruct (setDisassembly_loaded _ _ _ _ _ _ Hname Hfile Hload) as [Hbuild _].
  apply buildRows_Ok in Hbuild as (lo & _ & _ & _ & _ & _ & Hvalid & _).
  destruct (resetAndScan_spec m sourceCode d) as (_ & _ & _ & Hvalid' & _).
  rewrite Hvalid, Hvalid', elem_of_list_to_set in Hline. assumption.
Qed.

(** X12. After a load the cost of a type at a source line is the sum of
    the self costs of that type over the instructions of the disassembly
    that map to the line and whose address has an entry in the offset map
    of the symbol; at a line that is not valid it is 0. *)
Theorem loaded_cost_is_sum_of_self_costs (fs : FileSystem) (m m' : SourceCodeModel)
    (d : DisassemblyOutput) (sourceCode : string) (signals : list Signal) (type line : Z) :
  sourceFileName d <> EmptyString ->
  fs (sourceFileName d) = Some sourceCode ->
  setDisassembly fs m d = Ok (m', signals) ->
  Costs.cost (m_costs m') type line
  = recordsCost (costRecords (entry (m_callerCalleeResults m) (symbol d))
                             (disassemblyLines d)) type line /\
  (line ∉ m_validLineNumbers m' -> Costs.cost (m_costs m') type line = 0).
Proof.
  intros Hname Hfile Hload. split.
  - now apply (loaded_cost fs m m' d sourceCode signals).
  - now apply (loaded_cost_zero fs m m' d sourceCode signals).
Qed.



Section CostCells.
Context {decls : Declarations}.

(** X14. In a loaded model every column past the three named ones is a
    cost column: on an index of the model whose column is none of the
    named ones, the guard [column - COLUMN_COUNT < m_numTypes] of [data]
    holds, the cost role returns the cost of type [column - COLUMN_COUNT]
    at the line of the row, 0 when that line is not valid, and the
    total-cost role returns the total of that type. *)
Theorem cost_cells_of_loaded_model (fs : FileSystem) (m m' : SourceCodeModel)
    (d : DisassemblyOutput) (sourceCode : string) (signals : list Signal)
    (index : QModelIndex) :
  sourceFileName d <> EmptyString ->
  fs (sourceFileName d) = Some sourceCode ->
  setDisassembly fs m d = Ok (m', signals) ->
  is_int COLUMN_COUNT ->
  is_int (m_numTypes m') ->
  hasIndex m' (row index) (column index) invalidIndex = Ok true ->
  column index <> SourceCodeColumn ->
  column index <> SourceCodeLineNumber ->
  column index <> Highlight ->
  let type := column index - COLUMN_COUNT in
  let line := row index + m_lineOffset m' in
  data m' index CostRole = Ok (QCost (Costs.cost (m_costs m') type line)) /\
  data m' index TotalCostRole = Ok (QCost (Costs.totalCost (m_costs m') type)) /\
  (line ∉ m_validLineNumbers m' -> data m' index CostRole = Ok (QCost 0)).
Proof.
  intros Hname Hfile Hload Hcc Hnt Hhas Hsc Hsln Hhl. cbv zeta.
  destruct (setDisassembly_loaded _ _ _ _ _ _ Hname Hfile Hload) as [Hbuild _].
  destruct (hasIndex_true _ _ _ Hhas) as (Hrow & columns & Hcolumns & Hcol).
  unfold columnCount in Hcolumns. simpl in Hcolumns.
  apply int_add_Ok in Hcolumns as [-> Hsum].
  destruct (loaded_rows_are_ints _ _ _ _ Hbuild Hrow) as [Hint _].
  assert (forall role, cellRole role = true ->
            data m' index role =
            if Role_eqb role CostRole
            then Ok (QCost (Costs.cost (m_costs m') (column index - COLUMN_COUNT)
                                       (row index + m_lineOffset m')))
            else if Role_eqb role TotalCostRole
            then Ok (QCost (Costs.totalCost (m_costs m') (column index - COLUMN_COUNT)))
            else Ok (QText (formatCostRelative
                              (Costs.cost (m_costs m') (column index - COLUMN_COUNT)
                                          (row index + m_lineOffset m'))
                              (Costs.totalCost (m_costs m') (column index - COLUMN_COUNT))
                              true))) as Hdata.
  { intros role Hrole.
    destruct (data_of_cell m' index role Hhas Hrole) as (text & _ & ->).
    destruct (Z.eqb_spec (column index) SourceCodeColumn); [contradiction|].
    destruct (Z.eqb_spec (column index) SourceCodeLineNumber); [contradiction|].
    destruct (Z.eqb_spec (column index) Highlight); [contradiction|].
    unfold int_sub, int_add.
    rewrite (to_int_in_range (column index - COLUMN_COUNT))
      by (unfold is_int, INT_MIN, INT_MAX in *; lia).
    simpl.
    destruct (Z.ltb_spec (column index - COLUMN_COUNT) (m_numTypes m')); [|lia].
    rewrite (to_int_in_range (row index + m_lineOffset m')) by assumption.
    reflexivity. }
  split; [now rewrite Hdata|]. split; [now rewrite Hdata|].
  intros Hline. rewrite Hdata by reflexivity. simpl. do 2 f_equal.
  now apply (loaded_cost_zero fs m m' d sourceCode signals).
Qed.

End CostCells.

(** ** Calls in sequence *)

Lemma numTypes_addAll (records : list (Z * Costs.ItemCost)) :
  forall c, Costs.numTypes (Costs.addAll c records) = Costs.numTypes c.
Proof.
  assert (forall values first line c,
            Costs.numTypes (Costs.addFrom first values line c) = Costs.numTypes c) as Hadd.
  { induction values as [|v rest IH]; intros first line c; simpl; [reflexivity|].
    now rewrite IH. }
  induction records as [|[line record] rest IH]; intros c; [reflexivity|].
  unfold Costs.addAll in *. simpl. rewrite IH. apply Hadd.
Qed.

(** X19. After [setCallerCalleeResults] and a load, the model is that of
    the new results: the number of cost columns is the number of types of
    the aggregator, which is that of the self costs of the results, and
    the costs are the records of the entry that the results hold for the
    symbol of the disassembly. *)
Theorem load_after_new_results (fs : FileSystem) (m m' : SourceCodeModel)
    (results : CallerCalleeResults) (d : DisassemblyOutput) (sourceCode : string)
    (signals : list Signal) :
  sourceFileName d <> EmptyString ->
  fs (sourceFileName d) = Some sourceCode ->
  setDisassembly fs (fst (setCallerCalleeResults m results)) d = Ok (m', signals) ->
  m_numTypes m' = Costs.numTypes (m_costs m') /\
  m_numTypes m' = Costs.numTypes (selfCosts results) /\
  m_callerCalleeResults m' = results /\
  (forall type line,
     Costs.cost (m_costs m') type line
     = recordsCost (costRecords (entry results (symbol d)) (disassemblyLines d)) type line).
Proof.
  intros Hname Hfile Hload.
  destruct (setDisassembly_keeps_results _ _ _ _ _ Hload) as (Hres & Hnum & _).
  simpl in Hres, Hnum.
  split; [|split; [assumption | split; [assumption|]]].
  - destruct (setDisassembly_loaded _ _ _ _ _ _ Hname Hfile Hload) as [Hbuild _].
    apply buildRows_Ok in Hbuild as (lo & _ & _ & _ & _ & Hcosts & _).
    destruct (resetAndScan_spec (fst (setCallerCalleeResults m results)) sourceCode d)
      as (_ & _ & Hcosts' & _).
    rewrite Hcosts, Hcosts', numTypes_addAll, Hnum. reflexivity.
  - intros type line.
    now rewrite (loaded_cost fs _ m' d sourceCode signals type line Hname Hfile Hload).
Qed.

Section HighlightFacts.
Context {decls : Declarations}.

(** X20. [setDisassembly] and [updateHighlighting] commute, and a load
    keeps the highlight line: after a highlight and a load, the
    [Highlight] cell of a row of the new rows holds true exactly when the
    line number of the row is the line highlighted before the load. *)
Theorem load_keeps_the_highlight (fs : FileSystem) (m m1 : SourceCodeModel)
    (d : DisassemblyOutput) (signals : list Signal) (line : Z) :
  setDisassembly fs m d = Ok (m1, signals) ->
  let m' := fst (updateHighlighting m1 line) in
  setDisassembly fs (fst (updateHighlighting m line)) d = Ok (m', signals) /\
  (sourceFileName d <> EmptyString -> fs (sourceFileName d) <> None ->
   forall index role,
     hasIndex m' (row index) (column index) invalidIndex = Ok true ->
     cellRole role = true ->
     column index = Highlight ->
     data m' index role = Ok (QBool (row index + m_lineOffset m' =? line))).
Proof.
  intros Hload. cbv zeta. simpl.
  assert (setDisassembly fs (set_highlightLine line m) d
          = Ok (set_highlightLine line m1, signals)) as Hcommute.
  { pose proof Hload as Hload'.
    apply setDisassembly_Ok in Hload' as [[-> ->]|(sourceCode & Hname & Hfile & Hbuild)].
    - revert Hload. unfold setDisassembly.
      destruct (isEmpty (sourceFileName d)); [reflexivity|].
      destruct (fs (sourceFileName d)) as [sourceCode|]; [|reflexivity].
      intros H. apply bind_Ok in H as (m2 & _ & H). discriminate.
    - destruct (load_depends_on_inputs fs m (set_highlightLine line m) m1 d sourceCode
                  signals Hname Hfile eq_refl Hload) as (m2 & Hm2 & Hc & Hv & Hs & Ho).
      rewrite Hm2. do 2 f_equal.
      destruct (setDisassembly_keeps_results _ _ _ _ _ Hm2) as (Hres2 & Hnum2 & Hhl2).
      destruct (setDisassembly_keeps_results _ _ _ _ _ Hload) as (Hres1 & Hnum1 & _).
      destruct (setDisassembly_loaded _ _ _ _ _ _ Hname Hfile Hm2) as [Hbuild2 _].
      apply buildRows_Ok in Hbuild2 as (_ & _ & _ & _ & _ & _ & _ & Hdoc2 & _).
      apply buildRows_Ok in Hbuild as (_ & _ & _ & _ & _ & _ & _ & Hdoc1 & _).
      destruct (resetAndScan_spec m sourceCode d) as (_ & _ & _ & _ & Hd1 & _).
      destruct (resetAndScan_spec (set_highlightLine line m) sourceCode d)
        as (_ & _ & _ & _ & Hd2 & _).
      rewrite Hd1 in Hdoc1. rewrite Hd2 in Hdoc2.
      destruct m1, m2. simpl in *. unfold set_highlightLine. simpl. congruence. }
  split; [assumption|].
  intros Hname Hfile index role Hhas Hrole Hcolumn.
  destruct (fs (sourceFileName d)) as [sourceCode|] eqn:Hopen; [|congruence].
  destruct (setDisassembly_loaded _ _ _ _ _ _ Hname Hopen Hcommute) as [Hbuild _].
  destruct (hasIndex_true _ _ _ Hhas) as (Hrow & _).
  destruct (loaded_rows_are_ints _ _ _ _ Hbuild Hrow) as [Hint _].
  destruct (data_of_cell _ index role Hhas Hrole) as (text & _ & ->).
  destruct columns_differ as (Hne1 & Hne2 & Hne3).
  rewrite Hcolumn.
  destruct (Z.eqb_spec Highlight SourceCodeColumn); [congruence|].
  destruct (Z.eqb_spec Highlight SourceCodeLineNumber); [congruence|].
  rewrite Z.eqb_refl. unfold int_add. rewrite to_int_in_range by assumption.
  reflexivity.
Qed.

End HighlightFacts.

(** ** The further properties on the concrete inputs *)

Section MoreInstances.
Import Examples.

Lemma main_is_loaded :
  sourceFileName mainDisassembly <> EmptyString /\
  files (sourceFileName mainDisassembly) = Some mainC /\
  setDisassembly files model mainDisassembly = Ok (mainLoaded, resetSignals).
Proof.
  split; [discriminate|]. split; [reflexivity|]. vm_compute. reflexivity.
Defined.

Lemma data_of_other_roles_is_empty_witness :
  is_int (COLUMN_COUNT + m_numTypes mainLoaded) /\
  cellRole decorationRole = false /\
  data mainLoaded (mkIndex 0 SourceCodeColumn) decorationRole = Ok QInvalid.
Proof.
  assert (is_int (COLUMN_COUNT + m_numTypes mainLoaded)) as Hint
    by (vm_compute; split; discriminate).
  split; [exact Hint|]. split; [reflexivity|].
  exact (data_of_other_roles_is_empty mainLoaded (mkIndex 0 SourceCodeColumn)
           decorationRole Hint eq_refl).
Defined.

Lemma headerData_names_every_section_witness :
  is_int COLUMN_COUNT /\
  is_int (m_numTypes mainLoaded) /\
  is_int (COLUMN_COUNT + m_numTypes mainLoaded) /\
  0 <= 4 < COLUMN_COUNT + m_numTypes mainLoaded /\
  headerData mainLoaded 4 Horizontal DisplayRole = Ok (QText "cache-misses") /\
  headerData mainLoaded 4 Vertical DisplayRole = Ok QInvalid.
Proof.
  assert (is_int COLUMN_COUNT) as Hcc by (vm_compute; split; discriminate).
  assert (is_int (m_numTypes mainLoaded)) as Hnt by (vm_compute; split; discriminate).
  assert (is_int (COLUMN_COUNT + m_numTypes mainLoaded)) as Hsum
    by (vm_compute; split; discriminate).
  assert (0 <= 4 < COLUMN_COUNT + m_numTypes mainLoaded) as Hsection
    by (vm_compute; split; [discriminate | reflexivity]).
  repeat (split; [assumption|]).
  destruct (headerData_names_every_section mainLoaded 4 Hcc Hnt Hsum Hsection)
    as [Hname Hother].
  split; [exact Hname|]. apply Hother. now right.
Defined.

Lemma mainLoaded_reachable : reachable mainLoaded.
Proof.
  apply (reachable_step model).
  - apply (reachable_step initialModel).
    + apply reachable_constructed. reflexivity.
    + exact (step_setCallerCalleeResults initialModel results).
  - exact (step_setDisassembly files model mainLoaded mainDisassembly resetSignals
             (proj2 (proj2 main_is_loaded))).
Defined.

Lemma reachable_rows_are_document_lines_witness :
  reachable mainLoaded /\
  rowsOfDocument mainLoaded /\
  data mainLoaded (mkIndex 1 SourceCodeColumn) DisplayRole
  = Ok (QLine (mkTextLine 5 "{")).
Proof.
  split; [exact mainLoaded_reachable|].
  destruct (reachable_rows_are_document_lines mainLoaded mainLoaded_reachable)
    as [Hrows Hcells].
  split; [exact Hrows|].
  destruct (Hcells (mkIndex 1 SourceCodeColumn) DisplayRole) as (text & Htext & Hdata);
    [vm_compute; reflexivity | reflexivity | reflexivity |].
  rewrite Hdata. vm_compute in Htext. injection Htext as <-. reflexivity.
Defined.

Lemma data_of_loaded_model_returns_witness :
  sourceFileName mainDisassembly <> EmptyString /\
  files (sourceFileName mainDisassembly) = Some mainC /\
  setDisassembly files model mainDisassembly = Ok (mainLoaded, resetSignals) /\
  is_int COLUMN_COUNT /\
  is_int (m_numTypes mainLoaded) /\
  is_int (COLUMN_COUNT + m_numTypes mainLoaded) /\
  exists value, data mainLoaded (mkIndex 0 3) CostRole = Ok value.
Proof.
  destruct main_is_loaded as (Hname & Hfile & Hload).
  assert (is_int COLUMN_COUNT) as Hcc by (vm_compute; split; discriminate).
  assert (is_int (m_numTypes mainLoaded)) as Hnt by (vm_compute; split; discriminate).
  assert (is_int (COLUMN_COUNT + m_numTypes mainLoaded)) as Hsum
    by (vm_compute; split; discriminate).
  repeat (split; [assumption|]).
  exact (data_of_loaded_model_returns files model mainLoaded mainDisassembly mainC
           resetSignals (mkIndex 0 3) CostRole Hname Hfile Hload Hcc Hnt Hsum).
Defined.

Lemma main_mapped_lines :
  mappedLines (disassemblyLines mainDisassembly) <> [] /\
  (forall l, l ∈ mappedLines (disassemblyLines mainDisassembly) ->
     4 < l < count (split mainC)) /\
  (forall l, l ∈ mappedLines (disassemblyLines mainDisassembly) -> 0 < l <= INT_MAX).
Proof.
  split; [discriminate|]. split.
  - apply Forall_forall. repeat constructor; vm_compute; reflexivity.
  - apply Forall_forall. repeat constructor; vm_compute; discriminate.
Defined.

Lemma scan_finds_least_and_greatest_line_witness :
  mappedLines (disassemblyLines mainDisassembly) <> [] /\
  (forall l, l ∈ mappedLines (disassemblyLines mainDisassembly) -> 0 < l <= INT_MAX) /\
  (exists line, line ∈ disassemblyLines mainDisassembly
                /\ sourceCodeLine line = minIndex (resetAndScan model mainC mainDisassembly)) /\
  (exists line, line ∈ disassemblyLines mainDisassembly
                /\ sourceCodeLine line = maxIndex (resetAndScan model mainC mainDisassembly)) /\
  (forall line, line ∈ disassemblyLines mainDisassembly -> sourceCodeLine line <> 0 ->
     minIndex (resetAndScan model mainC mainDisassembly) <= sourceCodeLine line
     <= maxIndex (resetAndScan model mainC mainDisassembly)).
Proof.
  destruct main_mapped_lines as (Hmapped & _ & Hpos).
  split; [exact Hmapped|]. split; [exact Hpos|].
  exact (scan_finds_least_and_greatest_line model mainC mainDisassembly Hmapped Hpos).
Defined.

Lemma load_with_signature_returns_witness :
  sourceFileName mainDisassembly <> EmptyString /\
  files (sourceFileName mainDisassembly) = Some mainC /\
  mappedLines (disassemblyLines mainDisassembly) <> [] /\
  (forall l, l ∈ mappedLines (disassemblyLines mainDisassembly) ->
     4 < l < count (split mainC)) /\
  count (split mainC) <= INT_MAX /\
  hasParen (split mainC) 4 /\
  exists m',
    setDisassembly files model mainDisassembly = Ok (m', [ModelAboutToBeReset; ModelReset]) /\
    4 + 1 <= m_lineOffset m' /\
    (forall l, l ∈ mappedLines (disassemblyLines mainDisassembly) -> m_lineOffset m' <= l).
Proof.
  destruct main_is_loaded as (Hname & Hfile & _).
  destruct main_mapped_lines as (Hmapped & Hlines & _).
  assert (count (split mainC) <= INT_MAX) as Hsize by (vm_compute; discriminate).
  assert (hasParen (split mainC) 4) as Hparen by (eexists; split; reflexivity).
  repeat (split; [assumption|]).
  exact (load_with_signature_returns files model mainDisassembly mainC 4
           Hname Hfile Hmapped Hlines Hsize Hparen).
Defined.

Lemma load_without_parenthesis_faults_witness :
  sourceFileName plainDisassembly <> EmptyString /\
  plainFiles (sourceFileName plainDisassembly) = Some plainC /\
  mappedLines (disassemblyLines plainDisassembly) <> [] /\
  (forall l, l ∈ mappedLines (disassemblyLines plainDisassembly) -> 0 < l < INT_MAX) /\
  minIndex (resetAndScan model plainC plainDisassembly) <= count (split plainC) /\
  (forall i, 0 <= i < minIndex (resetAndScan model plainC plainDisassembly) ->
     lacksParen (split plainC) i) /\
  setDisassembly plainFiles model plainDisassembly = Fault (NullLayout (-1)).
Proof.
  assert (sourceFileName plainDisassembly <> EmptyString) as Hname by discriminate.
  assert (plainFiles (sourceFileName plainDisassembly) = Some plainC) as Hfile
    by reflexivity.
  assert (mappedLines (disassemblyLines plainDisassembly) <> []) as Hmapped by discriminate.
  assert (forall l, l ∈ mappedLines (disassemblyLines plainDisassembly) -> 0 < l < INT_MAX)
    as Hlines by (apply Forall_forall; repeat constructor; vm_compute; reflexivity).
  assert (minIndex (resetAndScan model plainC plainDisassembly) <= count (split plainC))
    as Hsize by (vm_compute; discriminate).
  assert (forall i, 0 <= i < minIndex (resetAndScan model plainC plainDisassembly) ->
            lacksParen (split plainC) i) as Hlack.
  { intros i Hi.
    replace (minIndex (resetAndScan model plainC plainDisassembly)) with 2 in Hi
      by (vm_compute; reflexivity).
    assert (i = 0 \/ i = 1) as [-> | ->] by lia; eexists; split; reflexivity. }
  repeat (split; [assumption|]).
  exact (load_without_parenthesis_faults plainFiles model plainDisassembly plainC
           Hname Hfile Hmapped Hlines Hsize Hlack).
Defined.

Lemma valid_line_has_a_row_witness :
  sourceFileName mainDisassembly <> EmptyString /\
  files (sourceFileName mainDisassembly) = Some mainC /\
  setDisassembly files model mainDisassembly = Ok (mainLoaded, resetSignals) /\
  7 ∈ m_validLineNumbers mainLoaded /\
  0 <= 7 - m_lineOffset mainLoaded < rowCount mainLoaded invalidIndex /\
  lineForIndex mainLoaded (mkIndex (7 - m_lineOffset mainLoaded) SourceCodeColumn) = Ok 7 /\
  exists text,
    lookupZ (split mainC) (7 - 1) = Some text /\
    listAt (m_sourceCode mainLoaded) (7 - m_lineOffset mainLoaded)
    = Ok (mkTextLine (7 - 1) text).
Proof.
  destruct main_is_loaded as (Hname & Hfile & Hload).
  assert (7 ∈ m_validLineNumbers mainLoaded) as Hvalid
    by (apply (bool_decide_unpack _); vm_compute; reflexivity).
  repeat (split; [assumption|]).
  exact (valid_line_has_a_row files model mainLoaded mainDisassembly mainC resetSignals
           7 SourceCodeColumn Hname Hfile Hload Hvalid).
Defined.

Lemma reload_of_same_disassembly_is_identity_witness :
  sourceFileName mainDisassembly <> EmptyString /\
  files (sourceFileName mainDisassembly) = Some mainC /\
  setDisassembly files model mainDisassembly = Ok (mainLoaded, resetSignals) /\
  setDisassembly files mainLoaded mainDisassembly = Ok (mainLoaded, resetSignals).
Proof.
  destruct main_is_loaded as (Hname & Hfile & Hload).
  repeat (split; [assumption|]).
  exact (reload_of_same_disassembly_is_identity files model mainLoaded mainDisassembly
           mainC resetSignals Hname Hfile Hload).
Defined.

Lemma loaded_cost_is_sum_of_self_costs_witness :
  sourceFileName mainDisassembly <> EmptyString /\
  files (sourceFileName mainDisassembly) = Some mainC /\
  setDisassembly files model mainDisassembly = Ok (mainLoaded, resetSignals) /\
  Costs.cost (m_costs mainLoaded) 0 5
  = recordsCost (costRecords (entry (m_callerCalleeResults model) (symbol mainDisassembly))
                             (disassemblyLines mainDisassembly)) 0 5 /\
  (5 ∉ m_validLineNumbers mainLoaded -> Costs.cost (m_costs mainLoaded) 0 5 = 0).
Proof.
  destruct main_is_loaded as (Hname & Hfile & Hload).
  repeat (split; [assumption|]).
  exact (loaded_cost_is_sum_of_self_costs files model mainLoaded mainDisassembly mainC
           resetSignals 0 5 Hname Hfile Hload).
Defined.



Lemma cost_cells_of_loaded_model_witness :
  sourceFileName mainDisassembly <> EmptyString /\
  files (sourceFileName mainDisassembly) = Some mainC /\
  setDisassembly files model mainDisassembly = Ok (mainLoaded, resetSignals) /\
  is_int COLUMN_COUNT /\
  is_int (m_numTypes mainLoaded) /\
  hasIndex mainLoaded 0 3 invalidIndex = Ok true /\
  data mainLoaded (mkIndex 0 3) CostRole = Ok (QCost 15) /\
  data mainLoaded (mkIndex 0 3) TotalCostRole = Ok (QCost 15).
Proof.
  destruct main_is_loaded as (Hname & Hfile & Hload).
  assert (is_int COLUMN_COUNT) as Hcc by (vm_compute; split; discriminate).
  assert (is_int (m_numTypes mainLoaded)) as Hnt by (vm_compute; split; discriminate).
  assert (hasIndex mainLoaded 0 3 invalidIndex = Ok true) as Hhas
    by (vm_compute; reflexivity).
  repeat (split; [assumption|]).
  destruct (cost_cells_of_loaded_model files model mainLoaded mainDisassembly mainC
              resetSignals (mkIndex 0 3) Hname Hfile Hload Hcc Hnt Hhas)
    as (Hcost & Htotal & _); try discriminate.
  split; [rewrite Hcost | rewrite Htotal]; vm_compute; reflexivity.
Defined.

Lemma includeSignature_nearest_parenthesis_witness :
  1 <= 1 <= 8 /\
  8 <= count (split wideC) /\
  8 - 1 <= INT_MAX /\
  hasParen (split wideC) (1 - 1) /\
  (forall j, 1 <= j <= 8 - 1 -> lacksParen (split wideC) j) /\
  includeSignature (split wideC) 8 = Ok 1.
Proof.
  assert (1 <= 1 <= 8) as Hk by lia.
  assert (8 <= count (split wideC)) as Hcount by (vm_compute; discriminate).
  assert (8 - 1 <= INT_MAX) as Hmax by (vm_compute; discriminate).
  assert (hasParen (split wideC) (1 - 1)) as Hparen by (eexists; split; reflexivity).
  assert (forall j, 1 <= j <= 8 - 1 -> lacksParen (split wideC) j) as Hlack.
  { intros j Hj.
    assert (j = 1 \/ j = 2 \/ j = 3 \/ j = 4 \/ j = 5 \/ j = 6 \/ j = 7)
      as [-> | [-> | [-> | [-> | [-> | [-> | ->]]]]]] by lia;
      eexists; split; reflexivity. }
  repeat (split; [assumption|]).
  exact (includeSignature_nearest_parenthesis (split wideC) 8 1 Hk Hcount Hmax Hparen Hlack).
Defined.

Lemma unmapped_load_reads_out_of_range_witness :
  sourceFileName emptyDisassembly <> EmptyString /\
  files (sourceFileName emptyDisassembly) = Some mainC /\
  (forall line, line ∈ disassemblyLines emptyDisassembly -> sourceCodeLine line = 0) /\
  count (split mainC) < INT_MAX /\
  setDisassembly files mainLoaded emptyDisassembly = Fault (OutOfRange (INT_MAX - 1)).
Proof.
  assert (sourceFileName emptyDisassembly <> EmptyString) as Hname by discriminate.
  assert (files (sourceFileName emptyDisassembly) = Some mainC) as Hfile by reflexivity.
  assert (forall line, line ∈ disassemblyLines emptyDisassembly -> sourceCodeLine line = 0)
    as Hunmapped by (apply Forall_forall; repeat constructor).
  assert (count (split mainC) < INT_MAX) as Hsize by (vm_compute; reflexivity).
  repeat (split; [assumption|]).
  exact (unmapped_load_reads_out_of_range files mainLoaded emptyDisassembly mainC
           Hname Hfile Hunmapped Hsize).
Defined.

Lemma loaded_total_is_sum_over_valid_lines_witness :
  sourceFileName mainDisassembly <> EmptyString /\
  files (sourceFileName mainDisassembly) = Some mainC /\
  setDisassembly files model mainDisassembly = Ok (mainLoaded, resetSignals) /\
  Costs.totalCost (m_costs mainLoaded) 1
  = Costs.sumOver (m_validLineNumbers mainLoaded) (Costs.cost (m_costs mainLoaded) 1).
Proof.
  destruct main_is_loaded as (Hname & Hfile & Hload).
  repeat (split; [assumption|]).
  exact (loaded_total_is_sum_over_valid_lines files model mainLoaded mainDisassembly mainC
           resetSignals 1 Hname Hfile Hload).
Defined.

Lemma load_after_new_results_witness :
  sourceFileName mainDisassembly <> EmptyString /\
  files (sourceFileName mainDisassembly) = Some mainC /\
  setDisassembly files (fst (setCallerCalleeResults initialModel results)) mainDisassembly
  = Ok (mainLoaded, resetSignals) /\
  m_numTypes mainLoaded = Costs.numTypes (m_costs mainLoaded) /\
  m_numTypes mainLoaded = Costs.numTypes (selfCosts results) /\
  m_callerCalleeResults mainLoaded = results /\
  (forall type line,
     Costs.cost (m_costs mainLoaded) type line
     = recordsCost (costRecords (entry results (symbol mainDisassembly))
                                (disassemblyLines mainDisassembly)) type line).
Proof.
  destruct main_is_loaded as (Hname & Hfile & Hload).
  repeat (split; [assumption|]).
  exact (load_after_new_results files initialModel mainLoaded results mainDisassembly
           mainC resetSignals Hname Hfile Hload).
Defined.

Lemma load_keeps_the_highlight_witness :
  setDisassembly files model mainDisassembly = Ok (mainLoaded, resetSignals) /\
  setDisassembly files (fst (updateHighlighting model 7)) mainDisassembly
  = Ok (fst (updateHighlighting mainLoaded 7), resetSignals) /\
  data (fst (updateHighlighting mainLoaded 7)) (mkIndex 2 Highlight) DisplayRole
  = Ok (QBool true).
Proof.
  destruct main_is_loaded as (Hname & Hfile & Hload).
  split; [exact Hload|].
  destruct (load_keeps_the_highlight files model mainLoaded mainDisassembly resetSignals 7
              Hload) as [Hcommute Hcells].
  split; [exact Hcommute|].
  rewrite (Hcells Hname ltac:(rewrite Hfile; discriminate) (mkIndex 2 Highlight) DisplayRole);
    [vm_compute; reflexivity | vm_compute; reflexivity | reflexivity | reflexivity].
Defined.

End MoreInstances.
